(** * Grist canvas widget: record mapping, element dispatch, navigation

    A shallow embedding of the widget's three source variants
    (the canvas widget with menu support, the CSS-grid widget and the
    plain canvas widget) together with the JavaScript primitives their
    code relies on: IEEE-754 binary64 numbers, [Number], [Math.round],
    truthiness and the [||] operator, and the browser's rules for a
    frame that reads, rewrites or replaces the URL of the top-level
    window. *)

From Stdlib Require Import ZArith List String Ascii Bool Lia DecimalString.
From Stdlib Require Import Floats.SpecFloat.
Import ListNotations.

#[local] Set Warnings "-register-all".
Local Open Scope Z_scope.

(** ** JavaScript numbers and values *)

Module JS.

(** A JavaScript number is an IEEE-754 binary64 value: 53 bits of
    precision, infinities at exponent 1024. *)
Definition prec : Z := 53.
Definition emax : Z := 1024.
Definition number : Set := spec_float.

Definition NaN : number := S754_nan.
Definition Infinity : number := S754_infinity false.
Definition pos_zero : number := S754_zero false.

(** The number denoted by an integer literal. *)
Definition of_Z (z : Z) : number := binary_normalize prec emax z 0 false.

Definition add (a b : number) : number := SFadd prec emax a b.

(** [Math.round(x)]: the integral number closest to [x], ties towards
    +Infinity; an integral [x] (also NaN, the infinities and the zeros)
    is returned as it is; a result of zero keeps the sign of [x]. *)
Definition Math_round (x : number) : number :=
  match x with
  | S754_finite s m e =>
      if 0 <=? e then x
      else
        let k := - e in
        let n := (2 * cond_Zopp s (Zpos m) + 2 ^ k) / 2 ^ (k + 1) in
        if n =? 0 then S754_zero s
        else binary_normalize prec emax n 0 false
  | _ => x
  end.

(** ToBoolean on numbers: the zeros and NaN are falsy. *)
Definition number_truthy (x : number) : bool :=
  match x with
  | S754_zero _ | S754_nan => false
  | _ => true
  end.

(** [a || b] where [a] is a number. *)
Definition number_or (a b : number) : number :=
  if number_truthy a then a else b.

(** *** StringToNumber

    Strings are the UTF-8 bytes of the JavaScript string. *)

Definition is_digit (c : ascii) : bool :=
  let n := N_of_ascii c in (48 <=? n)%N && (n <=? 57)%N.

Definition digit_val (c : ascii) : Z := Z.of_N (N_of_ascii c) - 48.

(** Value of a hexadecimal digit, if it is one. *)
Definition hex_val (c : ascii) : option Z :=
  let n := N_of_ascii c in
  if (48 <=? n)%N && (n <=? 57)%N then Some (Z.of_N n - 48)
  else if (65 <=? n)%N && (n <=? 70)%N then Some (Z.of_N n - 55)
  else if (97 <=? n)%N && (n <=? 102)%N then Some (Z.of_N n - 87)
  else None.

Fixpoint take_digits (l : list ascii) : list ascii * list ascii :=
  match l with
  | c :: r =>
      if is_digit c then let '(ds, rest) := take_digits r in (c :: ds, rest)
      else ([], l)
  | [] => ([], [])
  end.

Definition digits_val (ds : list ascii) : Z :=
  fold_left (fun acc c => 10 * acc + digit_val c) ds 0.

(** Digits of a literal in radix [b]; [None] when a character is not a
    digit of that radix or when there is no digit. *)
Fixpoint radix_val (b : Z) (acc : Z) (l : list ascii) : option Z :=
  match l with
  | [] => Some acc
  | c :: r =>
      match hex_val c with
      | Some d => if d <? b then radix_val b (b * acc + d) r else None
      | None => None
      end
  end.

Definition radix_literal (b : Z) (l : list ascii) : option Z :=
  match l with
  | [] => None
  | _ => radix_val b 0 l
  end.

(** White space and line terminators removed by the trimming step, as
    UTF-8 byte sequences. *)
Definition white_space : list (list ascii) :=
  map (map ascii_of_nat)
    [ [9]; [10]; [11]; [12]; [13]; [32]; [194; 160]; [225; 154; 128];
      [226; 128; 128]; [226; 128; 129]; [226; 128; 130]; [226; 128; 131];
      [226; 128; 132]; [226; 128; 133]; [226; 128; 134]; [226; 128; 135];
      [226; 128; 136]; [226; 128; 137]; [226; 128; 138]; [226; 128; 168];
      [226; 128; 169]; [226; 128; 175]; [226; 129; 159]; [227; 128; 128];
      [239; 187; 191] ]%nat.

Fixpoint strip_prefix (p l : list ascii) : option (list ascii) :=
  match p, l with
  | [], _ => Some l
  | a :: p', b :: l' => if Ascii.eqb a b then strip_prefix p' l' else None
  | _ :: _, [] => None
  end.

Fixpoint strip_any (ps : list (list ascii)) (l : list ascii)
  : option (list ascii) :=
  match ps with
  | [] => None
  | p :: ps' =>
      match strip_prefix p l with
      | Some r => Some r
      | None => strip_any ps' l
      end
  end.

(** Removes leading white space; the fuel is the length of the input. *)
Fixpoint trim_start_fuel (ws : list (list ascii)) (fuel : nat)
  (l : list ascii) : list ascii :=
  match fuel with
  | O => l
  | S f =>
      match strip_any ws l with
      | Some r => trim_start_fuel ws f r
      | None => l
      end
  end.

Definition trim_start (l : list ascii) : list ascii :=
  trim_start_fuel white_space (List.length l) l.

Definition trim_end (l : list ascii) : list ascii :=
  rev (trim_start_fuel (map (@rev ascii) white_space) (List.length l) (rev l)).

Definition trim (l : list ascii) : list ascii := trim_end (trim_start l).

(** The number nearest to [(-1)^s * D * 10^x], rounded to nearest, ties
    to even. *)
Definition decimal_to_number (s : bool) (D x : Z) : number :=
  if D =? 0 then S754_zero s
  else if 0 <=? x then
    binary_normalize prec emax (cond_Zopp s (D * 10 ^ x)) 0 false
  else
    let '(q, e, l) := SFdiv_core_binary prec emax D 0 (10 ^ (- x)) 0 in
    binary_round_aux prec emax s q e l.

(** ExponentPart (optional): [e] or [E], an optional sign, digits. *)
Definition parse_exponent (l : list ascii) : option Z :=
  match l with
  | [] => Some 0
  | c :: r =>
      if Ascii.eqb c "e"%char || Ascii.eqb c "E"%char then
        let '(neg, r') :=
          match r with
          | "-"%char :: t => (true, t)
          | "+"%char :: t => (false, t)
          | _ => (false, r)
          end in
        match take_digits r' with
        | ((_ :: _) as ds, []) => Some (cond_Zopp neg (digits_val ds))
        | _ => None
        end
      else None
  end.

(** StrUnsignedDecimalLiteral other than [Infinity]: mantissa digits and
    decimal exponent. *)
Definition parse_unsigned_decimal (l : list ascii) : option (Z * Z) :=
  let '(ip, r1) := take_digits l in
  let '(fp, r2) :=
    match r1 with
    | "."%char :: r => take_digits r
    | _ => ([], r1)
    end in
  match ip ++ fp with
  | [] => None
  | ds =>
      match parse_exponent r2 with
      | Some ex => Some (digits_val ds, ex - Z.of_nat (List.length fp))
      | None => None
      end
  end.

Definition Infinity_chars : list ascii := list_ascii_of_string "Infinity".

Definition list_ascii_eqb (a b : list ascii) : bool :=
  String.eqb (string_of_list_ascii a) (string_of_list_ascii b).

Definition parse_signed_decimal (l : list ascii) : number :=
  let '(neg, r) :=
    match l with
    | "-"%char :: t => (true, t)
    | "+"%char :: t => (false, t)
    | _ => (false, l)
    end in
  if list_ascii_eqb r Infinity_chars then S754_infinity neg
  else
    match parse_unsigned_decimal r with
    | Some (D, x) => decimal_to_number neg D x
    | None => NaN
    end.

Definition StringToNumber (s : string) : number :=
  let l := trim (list_ascii_of_string s) in
  match l with
  | [] => pos_zero
  | "0"%char :: c :: r =>
      let radix :=
        if Ascii.eqb c "x"%char || Ascii.eqb c "X"%char then Some 16
        else if Ascii.eqb c "o"%char || Ascii.eqb c "O"%char then Some 8
        else if Ascii.eqb c "b"%char || Ascii.eqb c "B"%char then Some 2
        else None in
      match radix with
      | Some b =>
          match radix_literal b r with
          | Some z => of_Z z
          | None => NaN
          end
      | None => parse_signed_decimal l
      end
  | _ => parse_signed_decimal l
  end.

(** *** Values *)

Inductive value : Type :=
| VUndefined
| VNull
| VBool (b : bool)
| VNumber (n : number)
| VString (s : string)
| VArray (items : list value)
| VObject (props : list (string * value)).

(** Property read on a plain object: [undefined] when the key is absent. *)
Fixpoint get (k : string) (props : list (string * value)) : value :=
  match props with
  | [] => VUndefined
  | (k', v) :: r => if String.eqb k k' then v else get k r
  end.

Definition ToBoolean (v : value) : bool :=
  match v with
  | VUndefined | VNull => false
  | VBool b => b
  | VNumber n => number_truthy n
  | VString s => negb (String.eqb s EmptyString)
  | VArray _ | VObject _ => true
  end.

(** [a || b] *)
Definition or (a b : value) : value := if ToBoolean a then a else b.

(** [Number(v)].  An array converts through its string form: the empty
    array gives the empty string, a one-element array the string of its
    element ([null] and [undefined] give the empty string, a number
    prints and parses back to itself with -0 printed as "0"), and the
    string of a longer array contains a comma, which no numeric literal
    does.  A plain object prints as "[object Object]". *)
Fixpoint Number (v : value) : number :=
  match v with
  | VUndefined => NaN
  | VNull => pos_zero
  | VBool true => of_Z 1
  | VBool false => pos_zero
  | VNumber n => n
  | VString s => StringToNumber s
  | VArray [] => pos_zero
  | VArray [e] =>
      match e with
      | VUndefined | VNull => pos_zero
      | VBool _ => NaN
      | VNumber (S754_zero _) => pos_zero
      | VObject _ => NaN
      | _ => Number e
      end
  | VArray _ => NaN
  | VObject _ => NaN
  end.

(** *** Predicates on numbers used in the statements *)

Definition one : number := of_Z 1.
Definition neg_half : number := S754_finite true 4503599627370496 (-53).

(** The number is one of the valid binary64 encodings. *)
Definition valid (x : number) : bool := valid_binary prec emax x.

Definition is_finite (x : number) : bool :=
  match x with
  | S754_zero _ | S754_finite _ _ _ => true
  | _ => false
  end.

Definition is_zero (x : number) : bool :=
  match x with
  | S754_zero _ => true
  | _ => false
  end.

(** [m * 2^e] is a whole number. *)
Definition is_integer (x : number) : bool :=
  match x with
  | S754_zero _ => true
  | S754_finite _ m e => (0 <=? e) || (Zpos m mod 2 ^ (- e) =? 0)
  | _ => false
  end.

(** [a <= b] *)
Definition le (a b : number) : bool := SFleb a b.

(** An integral number that is at least 1. *)
Definition one_based (x : number) : Prop :=
  is_integer x = true /\ le one x = true.

(** *** Rounding

    The mantissa kept by round-to-nearest-even after dropping the [k]
    low bits of [m]. *)
Definition rne (m k : Z) : Z :=
  round_nearest_even (m / 2 ^ k)
    (loc_of_shr_record
       (Build_shr_record (m / 2 ^ k) (Z.testbit m (k - 1))
          (negb (m mod 2 ^ (k - 1) =? 0)))).

(** *** Strings *)

(** [s.startsWith(p)] *)
Definition startsWith (p s : string) : bool := String.prefix p s.

(** [s.substring(n)] *)
Definition substring_from (n : nat) (s : string) : string :=
  String.substring n (String.length s - n) s.

(** *** Errors *)

Record Error : Type := { name : string; message : string }.

(** [Error.prototype.toString] *)
Definition Error_toString (e : Error) : string :=
  if String.eqb (name e) EmptyString then message e
  else if String.eqb (message e) EmptyString then name e
  else (name e ++ ": " ++ message e)%string.

Inductive result (A : Type) : Type :=
| Ok (a : A)
| Throw (e : Error).
Arguments Ok {A} a.
Arguments Throw {A} e.

Definition TypeError (msg : string) : Error :=
  {| name := "TypeError"; message := msg |}.

End JS.


(** ** URLs and the top-level window *)

Module Url.

(** An http(s) URL without credentials: [href] is the origin followed by
    the path, the query (when non-null) and the fragment (when
    non-null). *)
Record URL : Type := {
  origin : string;
  pathname : string;
  query : option string;
  fragment : option string
}.

Definition href (u : URL) : string :=
  (origin u ++ pathname u
   ++ match query u with Some q => "?" ++ q | None => EmptyString end
   ++ match fragment u with Some f => "#" ++ f | None => EmptyString end)%string.

Definition hex_digit (n : N) : ascii :=
  ascii_of_N (if (n <? 10)%N then 48 + n else 55 + n).

(** Percent-encoding of one byte with the fragment percent-encode set
    (C0 controls, space, the double quote, [<], [>], the backquote and
    everything above [~]). *)
Definition fragment_encode_byte (c : ascii) : list ascii :=
  let n := N_of_ascii c in
  if (n <=? 32)%N || (n =? 34)%N || (n =? 60)%N || (n =? 62)%N
     || (n =? 96)%N || (127 <=? n)%N
  then ["%"%char; hex_digit (n / 16); hex_digit (n mod 16)]
  else [c].

Definition is_tab_or_newline (c : ascii) : bool :=
  let n := N_of_ascii c in (n =? 9)%N || (n =? 10)%N || (n =? 13)%N.

(** The fragment state of the URL parser: tabs and newlines are dropped,
    the remaining bytes are percent-encoded. *)
Definition parse_fragment (input : string) : string :=
  string_of_list_ascii
    (flat_map fragment_encode_byte
       (filter (fun c => negb (is_tab_or_newline c))
          (list_ascii_of_string input))).

(** The [hash] setter: the empty string removes the fragment; otherwise
    one leading [#] is dropped and the rest is parsed as the fragment. *)
Definition set_hash (u : URL) (v : string) : URL :=
  if String.eqb v EmptyString then
    {| origin := origin u; pathname := pathname u; query := query u;
       fragment := None |}
  else
    let input := if JS.startsWith "#" v then JS.substring_from 1 v else v in
    {| origin := origin u; pathname := pathname u; query := query u;
       fragment := Some (parse_fragment input) |}.

Fixpoint take_authority (l : list ascii) : list ascii :=
  match l with
  | [] => []
  | c :: r =>
      if Ascii.eqb c "/"%char || Ascii.eqb c "?"%char || Ascii.eqb c "#"%char
      then [] else c :: take_authority r
  end.

(** Origin of an absolute URL string [scheme://host[:port]...]: the text
    up to the end of the authority; [None] for a string without
    [://]. *)
Definition origin_of (s : string) : option string :=
  match String.index 0 "://" s with
  | Some i =>
      let rest := JS.substring_from (i + 3) s in
      Some (String.substring 0 (i + 3) s
            ++ string_of_list_ascii (take_authority (list_ascii_of_string rest)))%string
  | None => None
  end.

End Url.

(** ** The browser around the widget *)

Module Browser.
Import JS.

(** What is taken from the engine as it is: the decimal text of
    a number ([Number::toString]) and the URL parser on the inputs that
    [resolve] below does not settle itself ([None] is the parser's
    failure). *)
Record Engine : Type := {
  number_to_string : number -> string;
  parse_url : Url.URL -> string -> option Url.URL
}.

(** [ToString] on the values a record can hold.  An array joins its
    elements with a comma, [undefined] and [null] elements giving the
    empty string; a plain object gives [[object Object]]. *)
Fixpoint ToString (eng : Engine) (v : value) : string :=
  match v with
  | VUndefined => "undefined"
  | VNull => "null"
  | VBool true => "true"
  | VBool false => "false"
  | VNumber n => number_to_string eng n
  | VString s => s
  | VArray l =>
      (fix join (l : list value) : string :=
         match l with
         | [] => EmptyString
         | e :: r =>
             let head :=
               match e with
               | VUndefined | VNull => EmptyString
               | _ => ToString eng e
               end in
             match r with
             | [] => head
             | _ :: _ => head ++ "," ++ join r
             end
         end) l
  | VObject _ => "[object Object]"
  end%string.

(** The widget runs in a frame of the top-level window.  The frame is
    not sandboxed against navigating the top-level window, and neither
    document sets [document.domain]. *)
Record Window : Type := {
  top_location : Url.URL;     (* the URL of the top-level document *)
  self_location : Url.URL     (* the URL of the widget's own document *)
}.

Definition SecurityError (msg : string) : Error :=
  {| name := "SecurityError"; message := msg |}.
Definition SyntaxError (msg : string) : Error :=
  {| name := "SyntaxError"; message := msg |}.

(** The frame and the top-level window are same-origin. *)
Definition same_origin (win : Window) : bool :=
  String.eqb (Url.origin (top_location win)) (Url.origin (self_location win)).

(** Reading [window.top.location.href] or [window.top.location.origin]
    (or any other member of the top-level location, or
    [window.top.history]) from a cross-origin frame throws. *)
Definition read_top_location (win : Window) : result Url.URL :=
  if same_origin win then Ok (top_location win)
  else Throw (SecurityError "Blocked a frame from accessing a cross-origin frame").

Definition is_c0_or_space (c : ascii) : bool := (N_of_ascii c <=? 32)%N.

Fixpoint drop_c0_or_space (l : list ascii) : list ascii :=
  match l with
  | [] => []
  | c :: r => if is_c0_or_space c then drop_c0_or_space r else l
  end.

(** The URL parser first removes leading and trailing C0 controls and
    spaces. *)
Definition strip (s : string) : string :=
  string_of_list_ascii
    (rev (drop_c0_or_space (rev (drop_c0_or_space (list_ascii_of_string s))))).

(** The URL parser with an http(s) base URL.  What is left of the input
    after stripping decides: nothing gives the base URL without its
    fragment; a [#] gives the base URL with the rest as its fragment;
    anything else is the engine's. *)
Definition resolve (eng : Engine) (base : Url.URL) (input : string)
  : option Url.URL :=
  match strip input with
  | EmptyString =>
      Some {| Url.origin := Url.origin base; Url.pathname := Url.pathname base;
              Url.query := Url.query base; Url.fragment := None |}
  | String c rest =>
      if Ascii.eqb c "#"%char then
        Some {| Url.origin := Url.origin base; Url.pathname := Url.pathname base;
                Url.query := Url.query base;
                Url.fragment := Some (Url.parse_fragment rest) |}
      else parse_url eng base input
  end.

(** [window.top.history.pushState(null, '', url)] with [url] already a
    string: the URL of the new history entry, or the exception.  The
    empty string stands for the document's URL; anything else is parsed
    relative to the top-level document, and must give a URL of that
    document's origin. *)
Definition pushState_url (eng : Engine) (win : Window) (url : string)
  : result Url.URL :=
  if negb (same_origin win) then
    Throw (SecurityError "Blocked a frame from accessing a cross-origin frame")
  else if String.eqb url EmptyString then Ok (top_location win)
  else
    match resolve eng (top_location win) url with
    | None => Throw (SecurityError "pushState: the URL is invalid")
    | Some u =>
        if String.eqb (Url.origin u) (Url.origin (top_location win)) then Ok u
        else Throw (SecurityError "pushState: the URL has another origin")
    end.

(** [window.top.location.href = url] with [url] already a string: the
    URL the top-level window is sent to, or the exception.  The setter
    may be called across origins; it parses relative to the document of
    the running script. *)
Definition href_assign_url (eng : Engine) (win : Window) (url : string)
  : result Url.URL :=
  match resolve eng (self_location win) url with
  | None => Throw (SyntaxError "href: the URL is invalid")
  | Some u => Ok u
  end.

End Browser.

(** Calls the widget makes on [window.top], in program order.  Output
    to the developer console is not part of the model. *)
Inductive top_call : Type :=
| HistoryPushState (url : JS.value)
    (* window.top.history.pushState(null, '', url) *)
| DispatchPopState
    (* window.top.dispatchEvent(new PopStateEvent('popstate')) *)
| LocationAssignHref (url : JS.value).
    (* window.top.location.href = url *)

Definition is_push (c : top_call) : bool :=
  match c with HistoryPushState _ => true | _ => false end.
Definition is_popstate (c : top_call) : bool :=
  match c with DispatchPopState => true | _ => false end.
Definition is_location_assign (c : top_call) : bool :=
  match c with LocationAssignHref _ => true | _ => false end.

Definition count (p : top_call -> bool) (calls : list top_call) : nat :=
  List.length (filter p calls).

(** A record supplied by the host: a plain object. *)
Definition SourceRecord : Type := list (string * JS.value).

(** ** The crash boundary *)

Module ErrorBoundary.

Record ErrorInfo : Type := { componentStack : string }.

Record State : Type := {
  hasError : bool;
  error : option JS.Error;
  errorInfo : option ErrorInfo
}.

(** [constructor] *)
Definition initial : State :=
  {| hasError := false; error := None; errorInfo := None |}.

(** [static getDerivedStateFromError(error)]: the returned object is
    merged into the state. *)
Definition getDerivedStateFromError (e : JS.Error) (st : State) : State :=
  {| hasError := true; error := error st; errorInfo := errorInfo st |}.

(** [componentDidCatch(error, errorInfo)] *)
Definition componentDidCatch (e : JS.Error) (info : ErrorInfo) (st : State)
  : State :=
  {| hasError := hasError st; error := Some e; errorInfo := Some info |}.

Inductive view (V : Type) : Type :=
| Diagnostic (description : option string) (stack : option string)
| Children (children : V).
Arguments Diagnostic {V} description stack.
Arguments Children {V} children.

(** [render()] of the grid widget: the failure's description and the
    component stack. *)
Definition render {V} (st : State) (children : V) : view V :=
  if hasError st then
    Diagnostic (option_map JS.Error_toString (error st))
      (option_map componentStack (errorInfo st))
  else Children children.

(** [render()] of the canvas widgets: the failure's description only. *)
Definition render_canvas {V} (st : State) (children : V) : view V :=
  if hasError st then
    Diagnostic (option_map JS.Error_toString (error st)) None
  else Children children.

End ErrorBoundary.

(** [if (status)] on a state that is [null] or a string. *)
Definition status_truthy (status : option string) : bool :=
  match status with
  | Some s => negb (String.eqb s EmptyString)
  | None => false
  end.

(** ** The canvas widget with menu tiles (v2.3) *)

Module CanvasWidget.
Import JS.

Record Tile : Type := {
  id : value;
  x : number;
  y : number;
  w : number;
  h : number;
  label : value;
  link : value;
  color : value;
  bgColor : value;
  type : value;
  pages : value
}.

(** The callback of [records.map] in the records handler: one source
    record to one tile view-model. *)
Definition mapRecord (rec : SourceRecord) : Tile :=
  {| id := get "id" rec;
     x := add (number_or (Math_round (Number (get "X" rec))) (of_Z 0)) (of_Z 1);
     y := add (number_or (Math_round (Number (get "Y" rec))) (of_Z 0)) (of_Z 1);
     w := number_or (Math_round (Number (get "W" rec))) (of_Z 2);
     h := number_or (Math_round (Number (get "H" rec))) (of_Z 1);
     label := or (get "Label" rec) (VString EmptyString);
     link := or (get "Link" rec) (VString EmptyString);
     color := or (get "Color" rec) (VString "var(--color-cell-fg, #3d3d3d)");
     bgColor :=
       if ToBoolean (get "Color" rec) then VString "rgba(255,255,255,0.05)"
       else VString "var(--color-cell-bg, white)";
     type := get "Type" rec;
     pages := get "Pages" rec |}.

(** [mappedData]: the batch mapped record by record. *)
Definition mappedData (records : list SourceRecord) : list Tile :=
  map mapRecord records.

(** The two [useState] cells of [Dashboard]. *)
Record State : Type := {
  items : list Tile;
  status : option string
}.

Definition initial : State :=
  {| items := []; status := Some "Initializing..."%string |}.

Definition setItems (v : list Tile) (st : State) : State :=
  {| items := v; status := status st |}.
Definition setStatus (v : option string) (st : State) : State :=
  {| items := items st; status := v |}.

(** The effect run at mount; [grist] tells whether [window.grist] is
    there.  With it, the widget announces itself and subscribes
    [onRecords]. *)
Definition useEffect (grist : bool) (st : State) : State :=
  if negb grist then setStatus (Some "Error: Grist API not found."%string) st
  else st.

(** The handler given to [grist.onRecords]; [None] is an absent
    batch. *)
Definition onRecords (records : option (list SourceRecord)) (st : State)
  : State :=
  match records with
  | None | Some [] =>
      setItems []
        (setStatus
           (Some "No configuration found. Please link to the SysDashboard_Config table."%string)
           st)
  | Some recs => setStatus None (setItems (mappedData recs) st)
  end.

Inductive component : Type := MenuComponent | DefaultComponent.

(** A React element [<C item={item} />]. *)
Record element : Type := { element_type : component; item_prop : Tile }.

(** [Array.isArray(v) && v.length > 1] *)
Definition is_array_longer_than_one (v : value) : bool :=
  match v with
  | VArray l => (1 <? List.length l)%nat
  | _ => false
  end.

(** [v === 'Menu'] *)
Definition is_Menu (v : value) : bool :=
  match v with
  | VString s => String.eqb s "Menu"
  | _ => false
  end.

(** The element dispatcher. *)
Definition Element (item : Tile) : element :=
  if is_Menu (type item) && is_array_longer_than_one (pages item)
  then {| element_type := MenuComponent; item_prop := item |}
  else {| element_type := DefaultComponent; item_prop := item |}.

Inductive view : Type :=
| StatusMessage (text : string)
| DashboardCanvas (children : list element).

(** The render function of [Dashboard]; the children are given as
    [Element] renders them. *)
Definition Dashboard (st : State) : view :=
  if status_truthy (status st)
  then StatusMessage (match status st with Some s => s | None => EmptyString end)
  else DashboardCanvas (map Element (items st)).

(** Property read [v.k]: reading from [undefined] or [null] throws; the
    keys read by the menu ([id], [fields], [page_name]) are own
    properties of plain objects only. *)
Definition prop (k : string) (v : value) : result value :=
  match v with
  | VUndefined | VNull =>
      Throw (TypeError "Cannot read properties of undefined or null")
  | VObject props => Ok (get k props)
  | _ => Ok VUndefined
  end.

Record MenuEntry : Type := { key : value; page_name : value }.

(** [pageRecords] of [MenuElement] *)
Definition pageRecords (item : Tile) : value :=
  if is_array_longer_than_one (pages item) then
    match pages item with
    | VArray l => nth 1 l VUndefined
    | _ => VArray []
    end
  else VArray [].

(** The callback of [pageRecords.map]: the key and the text of one
    entry. *)
Definition menu_entry (page : value) : result MenuEntry :=
  match prop "id" page with
  | Throw e => Throw e
  | Ok k =>
      match prop "fields" page with
      | Throw e => Throw e
      | Ok fields =>
          match prop "page_name" fields with
          | Throw e => Throw e
          | Ok n => Ok {| key := k; page_name := n |}
          end
      end
  end.

Fixpoint menu_entries (ps : list value) : result (list MenuEntry) :=
  match ps with
  | [] => Ok []
  | page :: r =>
      match menu_entry page with
      | Throw e => Throw e
      | Ok en =>
          match menu_entries r with
          | Throw e => Throw e
          | Ok es => Ok (en :: es)
          end
      end
  end.

(** The menu sub-renderer: the entries of the list it renders. *)
Definition MenuElement (item : Tile) : result (list MenuEntry) :=
  match pageRecords item with
  | VArray ps => menu_entries ps
  | _ => Throw (TypeError "pageRecords.map is not a function")
  end.

(** The navigation handler.  A truthy target that is not a string has
    no [startsWith].  On the history path [newUrl] is the top-level URL
    with another fragment, so [pushState] is given a URL of the
    top-level document's origin. *)
Definition handleNavigate (eng : Browser.Engine) (win : Browser.Window)
  (url : value) : result (list top_call) :=
  if negb (ToBoolean url) then Ok []
  else
    match url with
    | VString s =>
        if startsWith "#" s then
          match Browser.read_top_location win with
          | Throw e => Throw e
          | Ok top =>
              let newUrl := Url.set_hash top (substring_from 1 s) in
              Ok [HistoryPushState (VString (Url.href newUrl)); DispatchPopState]
          end
        else
          match Browser.href_assign_url eng win s with
          | Throw e => Throw e
          | Ok _ => Ok [LocationAssignHref url]
          end
    | _ => Throw (TypeError "url.startsWith is not a function")
    end.

(** [encodeURIComponent] on the bytes of a string. *)
Definition is_unreserved (c : ascii) : bool :=
  let n := N_of_ascii c in
  ((48 <=? n) && (n <=? 57) || (65 <=? n) && (n <=? 90)
   || (97 <=? n) && (n <=? 122))%N
  || existsb (Ascii.eqb c) (list_ascii_of_string "-_.!~*'()").

Definition encodeURIComponent (s : string) : string :=
  string_of_list_ascii
    (flat_map
       (fun c =>
          if is_unreserved c then [c]
          else
            let n := N_of_ascii c in
            ["%"%char; Url.hex_digit (n / 16); Url.hex_digit (n mod 16)])
       (list_ascii_of_string s)).

(** The click handler of the menu entry of [page]: it reads
    [page.fields.page_name] again and converts it to a string. *)
Definition menu_onClick (eng : Browser.Engine) (win : Browser.Window)
  (page : value) : result (list top_call) :=
  match prop "fields" page with
  | Throw e => Throw e
  | Ok fields =>
      match prop "page_name" fields with
      | Throw e => Throw e
      | Ok n =>
          handleNavigate eng win
            (VString ("#p=" ++ encodeURIComponent (Browser.ToString eng n)))
      end
  end.

(** The click handler of the default sub-renderer. *)
Definition default_onClick (eng : Browser.Engine) (win : Browser.Window)
  (item : Tile) : result (list top_call) :=
  handleNavigate eng win (link item).

End CanvasWidget.

(** ** The CSS-grid widget (v13.0) *)

Module GridWidget.
Import JS.

Record Tile : Type := {
  id : value;
  x : number;
  y : number;
  w : number;
  h : number;
  label : value;
  linkUrl : value;
  color : value
}.

Definition mapRecord (rec : SourceRecord) : Tile :=
  {| id := get "id" rec;
     x := add (number_or (Math_round (Number (get "X" rec))) (of_Z 0)) (of_Z 1);
     y := add (number_or (Math_round (Number (get "Y" rec))) (of_Z 0)) (of_Z 1);
     w := number_or (Math_round (Number (get "W" rec))) (of_Z 2);
     h := number_or (Math_round (Number (get "H" rec))) (of_Z 1);
     label := or (get "Label" rec) (VString "Untitled");
     linkUrl := get "Link" rec;
     color := or (get "Color" rec) (VString "#ffffff") |}.

Definition mappedData (records : list SourceRecord) : list Tile :=
  map mapRecord records.

Record State : Type := {
  items : list Tile;
  status : option string
}.

Definition initial : State :=
  {| items := []; status := Some "Initializing connection..."%string |}.

Definition setItems (v : list Tile) (st : State) : State :=
  {| items := v; status := status st |}.
Definition setStatus (v : option string) (st : State) : State :=
  {| items := items st; status := v |}.

(** [window.grist]: absent, or present with a [ready] call that returns
    or throws an error. *)
Inductive grist_global : Type :=
| NoGrist
| Grist (ready : result unit).

Definition useEffect (grist : grist_global) (st : State) : State :=
  match grist with
  | NoGrist => setStatus (Some "Error: Grist API global not found."%string) st
  | Grist (Ok _) => st
  | Grist (Throw err) =>
      setStatus (Some ("Grist Init Error: " ++ message err)%string) st
  end.

Definition onRecords (records : option (list SourceRecord)) (st : State)
  : State :=
  match records with
  | None | Some [] =>
      setItems [] (setStatus (Some "Connected: 0 records found."%string) st)
  | Some recs => setStatus None (setItems (mappedData recs) st)
  end.

(** The navigation handler.  A truthy target first has the origin of
    the top-level location read, which a cross-origin frame may not do;
    so the comparison that follows is only reached in a same-origin
    frame.  [pushState] and the [href] setter convert the target to a
    string. *)
Definition handleNavigate (eng : Browser.Engine) (win : Browser.Window)
  (url : value) : result (list top_call) :=
  if negb (ToBoolean url) then Ok []
  else
    match Browser.read_top_location win with
    | Throw e => Throw e
    | Ok top =>
        if String.eqb (Url.origin top) (Url.origin (Browser.self_location win))
        then
          match Browser.pushState_url eng win (Browser.ToString eng url) with
          | Throw e => Throw e
          | Ok _ => Ok [HistoryPushState url; DispatchPopState]
          end
        else
          match Browser.href_assign_url eng win (Browser.ToString eng url) with
          | Throw e => Throw e
          | Ok _ => Ok [LocationAssignHref url]
          end
    end.

(** One grid cell: the tile and whether the link icon is shown. *)
Record grid_item : Type := { tile : Tile; link_icon : bool }.

Inductive view : Type :=
| StatusMessage (text : string)
| GridCanvas (children : list grid_item).

Definition Dashboard (st : State) : view :=
  if status_truthy (status st)
  then StatusMessage (match status st with Some s => s | None => EmptyString end)
  else
    GridCanvas
      (map (fun item => {| tile := item; link_icon := ToBoolean (linkUrl item) |})
         (items st)).

(** [onClick] of a grid cell: [item.linkUrl && handleNavigate(item.linkUrl)] *)
Definition onClick (eng : Browser.Engine) (win : Browser.Window) (item : Tile)
  : result (list top_call) :=
  if ToBoolean (linkUrl item) then handleNavigate eng win (linkUrl item)
  else Ok [].

End GridWidget.

(** ** The plain canvas widget (v2.0) *)

Module PlainWidget.
Import JS.

Record State : Type := {
  items : list SourceRecord;
  status : option string
}.

Definition initial : State :=
  {| items := []; status := Some "Initializing..."%string |}.

Definition setItems (v : list SourceRecord) (st : State) : State :=
  {| items := v; status := status st |}.
Definition setStatus (v : option string) (st : State) : State :=
  {| items := items st; status := v |}.

Definition useEffect (grist : bool) (st : State) : State :=
  if negb grist then setStatus (Some "Error: Grist API not found."%string) st
  else st.

Definition onRecords (records : option (list SourceRecord)) (st : State)
  : State :=
  match records with
  | None | Some [] =>
      setItems []
        (setStatus
           (Some "No configuration found. Please link to the SysDashboard_Config table."%string)
           st)
  | Some recs => setStatus None (setItems recs st)
  end.

Inductive view : Type :=
| StatusMessage (text : string)
| DashboardCanvas (children : list SourceRecord).

Definition Dashboard (st : State) : view :=
  if status_truthy (status st)
  then StatusMessage (match status st with Some s => s | None => EmptyString end)
  else DashboardCanvas (items st).

End PlainWidget.

(** ** Concrete inputs used in the examples *)

Module Inputs.
Import JS.

Definition docs_url : Url.URL :=
  {| Url.origin := "https://docs.example";
     Url.pathname := "/o/docs/doc1/p/1";
     Url.query := Some "embed=true"%string;
     Url.fragment := Some "a1.s1"%string |}.

Definition widget_url : Url.URL :=
  {| Url.origin := "https://docs.example";
     Url.pathname := "/widgets/canvas/index.html";
     Url.query := None;
     Url.fragment := None |}.
Definition foreign_widget_url : Url.URL :=
  {| Url.origin := "https://widgets.example";
     Url.pathname := "/canvas/index.html";
     Url.query := None;
     Url.fragment := None |}.

(** The widget served from the host's own origin, and from another
    one. *)
Definition same_origin_window : Browser.Window :=
  {| Browser.top_location := docs_url;
     Browser.self_location := widget_url |}.
Definition cross_origin_window : Browser.Window :=
  {| Browser.top_location := docs_url;
     Browser.self_location := foreign_widget_url |}.

Definition hash_target : string := "#p=Budget".
Definition same_origin_target : string := "https://docs.example/o/docs/doc1/p/2".
Definition cross_origin_target : string := "https://other.example/x".

Definition zero_size_record : SourceRecord :=
  [("id", VNumber (of_Z 1)); ("W", VNumber (of_Z 0)); ("H", VNumber (of_Z 0))]%string.
Definition infinite_size_record : SourceRecord :=
  [("id", VNumber (of_Z 1)); ("W", VString "Infinity"); ("H", VString "Infinity")]%string.
Definition infinite_position_record : SourceRecord :=
  [("id", VNumber (of_Z 1)); ("X", VString "Infinity"); ("Y", VString "Infinity")]%string.
Definition negative_position_record : SourceRecord :=
  [("id", VNumber (of_Z 1)); ("X", VNumber (of_Z (-5))); ("Y", VNumber (of_Z (-5)))]%string.
Definition sample_record : SourceRecord :=
  [("id", VNumber (of_Z 7)); ("X", VString "3.6"); ("Y", VString "bad");
   ("W", VString "0.4"); ("H", VNumber (S754_zero true));
   ("Label", VString "Budget"); ("Link", VString "#p=Budget")]%string.

Definition page (n : Z) (name : string) : value :=
  VObject [("id", VNumber (of_Z n));
           ("fields", VObject [("page_name", VString name)])]%string.

(** A menu tile whose sub-record list has exactly one entry, and one
    with two entries. *)
Definition single_page_menu : CanvasWidget.Tile :=
  CanvasWidget.mapRecord
    [("id", VNumber (of_Z 1)); ("Type", VString "Menu");
     ("Pages", VArray [VString "Pages"; VArray [page 1 "Home"]])]%string.
Definition two_page_menu : CanvasWidget.Tile :=
  CanvasWidget.mapRecord
    [("id", VNumber (of_Z 1)); ("Type", VString "Menu");
     ("Pages", VArray [VString "Pages";
                       VArray [page 1 "Home"; page 2 "About"]])]%string.

End Inputs.

(** ** Whole numbers *)

Module NumberValue.
Import JS.

(** A whole number or an infinity: not NaN, no fractional part. *)
Definition whole_or_infinite (x : number) : bool :=
  match x with
  | S754_infinity _ => true
  | _ => is_integer x
  end.

(** The integer denoted by a whole number ([m * 2^e] with its sign); 0
    for the zeros and for what is not finite. *)
Definition integer_value (x : number) : Z :=
  match x with
  | S754_finite s m e =>
      cond_Zopp s (if 0 <=? e then Zpos m * 2 ^ e else Zpos m / 2 ^ (- e))
  | _ => 0
  end.

End NumberValue.


(** ** More concrete inputs *)

Module MoreInputs.
Import JS.

Definition integer_record : SourceRecord :=
  [("id", VNumber (of_Z 1)); ("X", VNumber (of_Z 3)); ("Y", VString "-7");
   ("W", VString "12"); ("H", VNumber (of_Z 0))]%string.

Definition fractional_record : SourceRecord :=
  [("id", VNumber (of_Z 2)); ("W", VString "2.5"); ("H", VString "-0.25")]%string.

End MoreInputs.

Module NavigationInputs.

(** The same page with another fragment. *)
Definition docs_url_other_fragment : Url.URL :=
  {| Url.origin := "https://docs.example";
     Url.pathname := "/o/docs/doc1/p/1";
     Url.query := Some "embed=true"%string;
     Url.fragment := Some "p=Old"%string |}.

Definition numeric_link_record : SourceRecord :=
  [("id", JS.VNumber (JS.of_Z 1)); ("Link", JS.VNumber (JS.of_Z 42))]%string.

(** The URLs the two absolute targets of the examples parse to. *)
Definition same_origin_target_url : Url.URL :=
  {| Url.origin := "https://docs.example";
     Url.pathname := "/o/docs/doc1/p/2";
     Url.query := None;
     Url.fragment := None |}.
Definition cross_origin_target_url : Url.URL :=
  {| Url.origin := "https://other.example";
     Url.pathname := "/x";
     Url.query := None;
     Url.fragment := None |}.

(** A string the URL parser fails on, with any base: the host is
    missing. *)
Definition unparsable_target : string := "http://".

(** An engine for the examples.  Its parser is a table of the absolute
    targets used there (an absolute URL parses the same with every
    base); all other strings, [unparsable_target] among them, are
    failures of this table.  Its numbers are printed for the whole
    numbers and the values that are not finite. *)
Definition sample_parse_url (base : Url.URL) (input : string) : option Url.URL :=
  if String.eqb input Inputs.same_origin_target then Some same_origin_target_url
  else if String.eqb input Inputs.cross_origin_target then Some cross_origin_target_url
  else None.

Definition sample_number_to_string (n : JS.number) : string :=
  match n with
  | S754_nan => "NaN"
  | S754_infinity false => "Infinity"
  | S754_infinity true => "-Infinity"
  | S754_zero _ => "0"
  | S754_finite _ _ _ =>
      NilZero.string_of_int (Z.to_int (NumberValue.integer_value n))
  end.

Definition sample_engine : Browser.Engine :=
  {| Browser.number_to_string := sample_number_to_string;
     Browser.parse_url := sample_parse_url |}.

(** The same-origin frame with the top-level page at another
    fragment. *)
Definition same_origin_window_other_fragment : Browser.Window :=
  {| Browser.top_location := docs_url_other_fragment;
     Browser.self_location := Inputs.widget_url |}.

End NavigationInputs.

(** ** Characters of encoded strings *)

Module Encoding.

(** A character that the fragment state of the URL parser keeps as it
    is. *)
Definition fragment_safe (c : ascii) : Prop :=
  Url.is_tab_or_newline c = false /\ Url.fragment_encode_byte c = [c].

(** One character as [encodeURIComponent] writes it. *)
Definition encode_char (c : ascii) : list ascii :=
  if CanvasWidget.is_unreserved c then [c]
  else ["%"%char; Url.hex_digit (N_of_ascii c / 16);
        Url.hex_digit (N_of_ascii c mod 16)].

End Encoding.

(** ** The host handshake *)

Module Host.

(** The options object the canvas widget passes to [grist.ready]. *)
Record canvas_options : Type := {
  canvas_columns : list string;
  canvas_requiredAccess : string
}.

Definition canvas_ready : canvas_options :=
  {| canvas_columns :=
       ["X"; "Y"; "W"; "H"; "Label"; "Link"; "Color"; "Type"; "Pages"]%string;
     canvas_requiredAccess := "full" |}.

(** One column declaration of the grid widget. *)
Record column : Type := {
  name : string;
  title : string;
  type : string;
  optional : bool
}.

Record grid_options : Type := {
  columns : list column;
  requiredAccess : string
}.

Definition grid_ready : grid_options :=
  {| columns :=
       [ {| name := "Label"; title := "Label"; type := "Text"; optional := false |};
         {| name := "Link"; title := "Link URL"; type := "Text"; optional := false |};
         {| name := "X"; title := "X Pos"; type := "Numeric"; optional := false |};
         {| name := "Y"; title := "Y Pos"; type := "Numeric"; optional := false |};
         {| name := "W"; title := "Width"; type := "Numeric"; optional := false |};
         {| name := "H"; title := "Height"; type := "Numeric"; optional := false |};
         {| name := "Color"; title := "Color"; type := "Text"; optional := true |} ];
     requiredAccess := "read table" |}.

Definition extra_column_record : SourceRecord :=
  [("id", JS.VNumber (JS.of_Z 3)); ("X", JS.VString "2"); ("Notes", JS.VString "draft");
   ("Label", JS.VString "Budget")]%string.
Definition plain_record : SourceRecord :=
  [("Label", JS.VString "Budget"); ("X", JS.VString "2");
   ("id", JS.VNumber (JS.of_Z 3))]%string.

End Host.

(** ** Calls React makes on the crash boundary *)

Module BoundaryCalls.

Inductive call : Type :=
| GetDerivedStateFromError (e : JS.Error)
| ComponentDidCatch (e : JS.Error) (info : ErrorBoundary.ErrorInfo).

Definition apply_call (st : ErrorBoundary.State) (c : call) : ErrorBoundary.State :=
  match c with
  | GetDerivedStateFromError e => ErrorBoundary.getDerivedStateFromError e st
  | ComponentDidCatch e info => ErrorBoundary.componentDidCatch e info st
  end.

(** The state after a sequence of calls. *)
Definition after (calls : list call) (st : ErrorBoundary.State) : ErrorBoundary.State :=
  fold_left apply_call calls st.

End BoundaryCalls.

(** ** Sub-records the menu can list *)

Module MenuPages.
Import JS.

(** A sub-record the menu sub-renderer can read: a plain object whose
    [fields] is neither [undefined] nor [null]. *)
Definition readable (page : value) : Prop :=
  exists props, page = VObject props /\
    get "fields" props <> VUndefined /\ get "fields" props <> VNull.

(** The entry the menu shows for a sub-record. *)
Definition shown_as (en : CanvasWidget.MenuEntry) (page : value) : Prop :=
  exists props, page = VObject props /\
    CanvasWidget.key en = get "id" props /\
    CanvasWidget.prop "page_name" (get "fields" props)
      = Ok (CanvasWidget.page_name en).

Definition row_id_menu : CanvasWidget.Tile :=
  CanvasWidget.mapRecord
    [("id", VNumber (of_Z 1)); ("Type", VString "Menu");
     ("Pages", VArray [VString "L"; VNumber (of_Z 4); VNumber (of_Z 5)])]%string.

End MenuPages.

(** ** Facts about binary64 rounding *)

Module NumberFacts.
Import JS.

Lemma digits2_bounds (p : positive) :
  2 ^ (Zpos (digits2_pos p) - 1) <= Zpos p < 2 ^ Zpos (digits2_pos p).
Proof.
  induction p as [p IH | p IH | ]; cbn [digits2_pos].
  - rewrite Pos2Z.inj_succ, Z.pow_succ_r by lia.
    replace (Z.succ (Zpos (digits2_pos p)) - 1) with (Z.succ (Zpos (digits2_pos p) - 1)) by lia.
    rewrite Z.pow_succ_r by lia. lia.
  - rewrite Pos2Z.inj_succ, Z.pow_succ_r by lia.
    replace (Z.succ (Zpos (digits2_pos p)) - 1) with (Z.succ (Zpos (digits2_pos p) - 1)) by lia.
    rewrite Z.pow_succ_r by lia. lia.
  - cbn. lia.
Qed.

Lemma digits2_unique (p : positive) (d : Z) :
  2 ^ (d - 1) <= Zpos p < 2 ^ d -> Zpos (digits2_pos p) = d.
Proof.
  intros [Hlo Hhi].
  pose proof (digits2_bounds p) as [Blo Bhi].
  assert (Hd : 0 < d).
  { destruct (Z_lt_le_dec 0 d) as [|Hn]; [assumption|].
    exfalso. destruct (Z.eq_dec d 0) as [->|]; [cbn in Hhi; lia|].
    rewrite Z.pow_neg_r in Hhi by lia. lia. }
  destruct (Z.lt_trichotomy (Zpos (digits2_pos p)) d) as [Hlt | [Heq | Hgt]].
  - exfalso.
    assert (2 ^ Zpos (digits2_pos p) <= 2 ^ (d - 1)) by (apply Z.pow_le_mono_r; lia).
    lia.
  - assumption.
  - exfalso.
    assert (2 ^ d <= 2 ^ (Zpos (digits2_pos p) - 1)) by (apply Z.pow_le_mono_r; lia).
    lia.
Qed.

Lemma shift_pos_spec (m d : positive) :
  Zpos (Pos.iter xO m d) = Zpos m * 2 ^ Zpos d.
Proof.
  induction d as [|d IH] using Pos.peano_ind.
  - cbn. lia.
  - rewrite Pos.iter_succ, Pos2Z.inj_xO, IH, Pos2Z.inj_succ, Z.pow_succ_r by lia. lia.
Qed.

Lemma shl_align_down (mx : positive) (ex ex' : Z) :
  ex' < ex ->
  exists mz, shl_align mx ex ex' = (mz, ex') /\ Zpos mz = Zpos mx * 2 ^ (ex - ex').
Proof.
  intros H. unfold shl_align.
  destruct (ex' - ex) as [|p|p] eqn:E; try lia.
  eexists; split; [reflexivity|].
  rewrite shift_pos_spec. f_equal. f_equal. lia.
Qed.

Lemma shl_align_keep (mx : positive) (ex ex' : Z) :
  ex <= ex' -> shl_align mx ex ex' = (mx, ex).
Proof.
  intros H. unfold shl_align.
  destruct (ex' - ex) as [|p|p] eqn:E; try lia; reflexivity.
Qed.

Lemma shr_1_nonneg (m : Z) (r s : bool) :
  0 <= m ->
  shr_1 (Build_shr_record m r s) = Build_shr_record (m / 2) (Z.odd m) (r || s).
Proof.
  intros H. unfold shr_1.
  destruct m as [|p|p]; [reflexivity| |lia].
  rewrite <- Z.div2_div. destruct p as [p|p|]; reflexivity.
Qed.

Lemma iter_pos_nat {A} (f : A -> A) (p : positive) (a : A) :
  iter_pos f p a = Nat.iter (Pos.to_nat p) f a.
Proof.
  revert a. induction p as [p IH | p IH | ]; intros a; cbn [iter_pos].
  - rewrite !IH, Pos2Nat.inj_xI.
    replace (S (2 * Pos.to_nat p))%nat with (Pos.to_nat p + (Pos.to_nat p + 1))%nat by lia.
    rewrite !Nat.iter_add. reflexivity.
  - rewrite !IH, Pos2Nat.inj_xO.
    replace (2 * Pos.to_nat p)%nat with (Pos.to_nat p + Pos.to_nat p)%nat by lia.
    rewrite Nat.iter_add. reflexivity.
  - reflexivity.
Qed.

(** [n + 1] right shifts of an exact mantissa: quotient, round bit and
    sticky bit. *)
Lemma shr_iter (m : Z) (n : nat) :
  0 <= m ->
  Nat.iter (S n) shr_1 (Build_shr_record m false false) =
  Build_shr_record (m / 2 ^ Z.of_nat (S n)) (Z.testbit m (Z.of_nat n))
    (negb (m mod 2 ^ Z.of_nat n =? 0)).
Proof.
  intros Hm. induction n as [|n IH].
  - cbn [Nat.iter]. rewrite shr_1_nonneg by assumption.
    change (Z.of_nat 1) with 1. change (Z.of_nat 0) with 0.
    rewrite Z.pow_1_r, Z.pow_0_r, Z.mod_1_r, Z.bit0_odd. reflexivity.
  - change (Nat.iter (S (S n)) shr_1 ?x) with (shr_1 (Nat.iter (S n) shr_1 x)).
    rewrite IH, shr_1_nonneg by (apply Z.div_pos; lia).
    f_equal.
    + rewrite Z.div_div by lia. f_equal.
      rewrite (Nat2Z.inj_succ (S n)), Z.pow_succ_r by lia. lia.
    + rewrite <- Z.bit0_odd, Z.div_pow2_bits by lia. rewrite Z.add_0_l. reflexivity.
    + rewrite (Nat2Z.inj_succ n), Z.pow_succ_r by lia.
      set (a := 2 ^ Z.of_nat n). assert (Ha : 0 < a) by (apply Z.pow_pos_nonneg; lia).
      rewrite (Z.mul_comm 2 a), Z.rem_mul_r by lia.
      pose proof (Z.mod_pos_bound m a Ha).
      destruct (Z.testbit m (Z.of_nat n)) eqn:T.
      * apply Z.testbit_true in T; [|lia]. fold a in T. rewrite T.
        destruct (Z.eqb_spec (m mod a + a * 1) 0); [lia|].
        reflexivity.
      * apply Z.testbit_false in T; [|lia]. fold a in T. rewrite T.
        rewrite Z.mul_0_r, Z.add_0_r. reflexivity.
Qed.

Lemma fexp_normal (e : Z) : -1021 <= e -> fexp prec emax e = e - 53.
Proof. unfold fexp, emin, prec, emax. lia. Qed.

Lemma digits2_shift (m : positive) (k : Z) :
  0 <= k ->
  Zpos (digits2_pos (Z.to_pos (Zpos m * 2 ^ k))) = Zpos (digits2_pos m) + k.
Proof.
  intros Hk. pose proof (digits2_bounds m) as [Blo Bhi].
  assert (Hp : 0 < 2 ^ k) by (apply Z.pow_pos_nonneg; lia).
  apply digits2_unique. rewrite Z2Pos.id by nia.
  replace (Zpos (digits2_pos m) + k - 1) with ((Zpos (digits2_pos m) - 1) + k) by lia.
  rewrite !Z.pow_add_r by lia. nia.
Qed.

(** Rounding a mantissa that already has 53 digits changes nothing. *)
Lemma binary_round_aux_canonical (s : bool) (m : positive) (e : Z) :
  Zpos (digits2_pos m) = 53 -> -1074 <= e ->
  binary_round_aux prec emax s (Zpos m) e loc_Exact =
  if e <=? 971 then S754_finite s m e else S754_infinity s.
Proof.
  intros Hd He.
  unfold binary_round_aux, shr_fexp, Zdigits2. cbn [shr_record_of_loc].
  rewrite Hd, fexp_normal by lia.
  replace (53 + e - 53 - e) with 0 by lia. cbn [shr shr_m loc_of_shr_record round_nearest_even].
  rewrite Hd, fexp_normal by lia.
  replace (53 + e - 53 - e) with 0 by lia. cbn [shr shr_m shr_record_of_loc].
  reflexivity.
Qed.

Lemma rne_range (m k : Z) : m / 2 ^ k <= rne m k <= m / 2 ^ k + 1.
Proof.
  unfold rne, round_nearest_even, loc_of_shr_record.
  destruct (Z.testbit m (k - 1)), (negb (m mod 2 ^ (k - 1) =? 0));
    try destruct (Z.even (m / 2 ^ k)); lia.
Qed.

Lemma rne_no_round_bit (m k : Z) :
  Z.testbit m (k - 1) = false -> rne m k = m / 2 ^ k.
Proof.
  intros H. unfold rne, round_nearest_even, loc_of_shr_record. rewrite H.
  destruct (negb (m mod 2 ^ (k - 1) =? 0)); reflexivity.
Qed.

Lemma rne_tie (m k : Z) :
  Z.testbit m (k - 1) = true -> m mod 2 ^ (k - 1) = 0 ->
  rne m k = if Z.even (m / 2 ^ k) then m / 2 ^ k else m / 2 ^ k + 1.
Proof.
  intros H H0. unfold rne, round_nearest_even, loc_of_shr_record.
  rewrite H, H0. reflexivity.
Qed.

(** Rounding a mantissa of more than 53 digits in the normal range. *)
Lemma binary_round_aux_shift (s : bool) (m : positive) (e : Z) :
  let d := Zpos (digits2_pos m) in
  53 < d -> -1074 <= d + e - 53 ->
  binary_round_aux prec emax s (Zpos m) e loc_Exact =
  if rne (Zpos m) (d - 53) =? 2 ^ 53 then
    if d + e - 53 + 1 <=? 971 then S754_finite s (Z.to_pos (2 ^ 52)) (d + e - 53 + 1)
    else S754_infinity s
  else
    if d + e - 53 <=? 971
    then S754_finite s (Z.to_pos (rne (Zpos m) (d - 53))) (d + e - 53)
    else S754_infinity s.
Proof.
  intros d Hd He.
  pose proof (digits2_bounds m) as [Blo Bhi]. fold d in Blo, Bhi.
  assert (Hq : 2 ^ 52 <= Zpos m / 2 ^ (d - 53) < 2 ^ 53).
  { assert (Hp : 0 < 2 ^ (d - 53)) by (apply Z.pow_pos_nonneg; lia).
    assert (E1 : 2 ^ (d - 1) = 2 ^ 52 * 2 ^ (d - 53))
      by (rewrite <- Z.pow_add_r by lia; f_equal; lia).
    assert (E2 : 2 ^ d = 2 ^ 53 * 2 ^ (d - 53))
      by (rewrite <- Z.pow_add_r by lia; f_equal; lia).
    rewrite E1 in Blo. rewrite E2 in Bhi.
    split.
    - apply Z.div_le_lower_bound; lia.
    - apply Z.div_lt_upper_bound; lia. }
  pose proof (rne_range (Zpos m) (d - 53)) as Hr.
  unfold binary_round_aux, shr_fexp. cbn [Zdigits2 shr_record_of_loc]. fold d.
  rewrite fexp_normal by lia.
  replace (d + e - 53 - e) with (d - 53) by lia.
  destruct (d - 53) as [|p|p] eqn:Ek; try lia.
  cbn [shr]. rewrite iter_pos_nat.
  destruct (Pos.to_nat p) as [|n] eqn:En; [lia|].
  rewrite shr_iter by lia.
  assert (Hn : Z.of_nat (S n) = Zpos p) by lia.
  assert (Hn' : Z.of_nat n = Zpos p - 1) by lia.
  rewrite Hn, Hn'. cbn [shr_m]. fold (rne (Zpos m) (Zpos p)).
  set (r := rne (Zpos m) (Zpos p)) in *.
  replace (e + Zpos p) with (d + e - 53) by lia.
  destruct (Z.eqb_spec r (2 ^ 53)) as [E53|N53].
  - rewrite E53. cbn [Zdigits2]. change (Zpos (digits2_pos (Z.to_pos (2 ^ 53)))) with 54.
    change (2 ^ 53) with (Zpos (Z.to_pos (2 ^ 53))). cbn [Zdigits2].
    change (Zpos (digits2_pos (Z.to_pos (2 ^ 53)))) with 54.
    rewrite fexp_normal by lia.
    replace (54 + (d + e - 53) - 53 - (d + e - 53)) with 1 by lia.
    cbn [shr iter_pos shr_record_of_loc]. 
    replace (d + e - 53 + 1 <=? emax - prec) with (d + e - 53 + 1 <=? 971) by reflexivity.
    reflexivity.
  - assert (Hr53 : 2 ^ 52 <= r < 2 ^ 53) by lia.
    destruct r as [|rp|rp] eqn:Er; try lia.
    cbn [Zdigits2].
    rewrite (digits2_unique rp 53) by (change (53 - 1) with 52; lia).
    rewrite fexp_normal by lia.
    replace (53 + (d + e - 53) - 53 - (d + e - 53)) with 0 by lia.
    cbn [shr shr_m shr_record_of_loc]. rewrite Pos2Z.id.
    reflexivity.
Qed.

(** [binary_round] in the normal range: either the mantissa is padded
    to 53 digits (no rounding), or its low bits are rounded away. *)
Lemma binary_round_normal (s : bool) (m : positive) (e : Z) :
  let d := Zpos (digits2_pos m) in
  -1074 <= d + e - 53 ->
  binary_round prec emax s m e =
  if d <=? 53 then
    if d + e - 53 <=? 971
    then S754_finite s (Z.to_pos (Zpos m * 2 ^ (53 - d))) (d + e - 53)
    else S754_infinity s
  else
    if rne (Zpos m) (d - 53) =? 2 ^ 53 then
      if d + e - 53 + 1 <=? 971
      then S754_finite s (Z.to_pos (2 ^ 52)) (d + e - 53 + 1)
      else S754_infinity s
    else
      if d + e - 53 <=? 971
      then S754_finite s (Z.to_pos (rne (Zpos m) (d - 53))) (d + e - 53)
      else S754_infinity s.
Proof.
  intros d He. unfold binary_round. fold d.
  rewrite fexp_normal by (pose proof (Pos2Z.is_pos (digits2_pos m)); lia).
  destruct (Z.leb_spec d 53) as [Hle|Hgt].
  - destruct (Z.eq_dec d 53) as [E53|N53].
    + rewrite shl_align_keep by lia.
      rewrite binary_round_aux_canonical by (fold d; lia).
      rewrite E53. replace (53 + e - 53) with e by lia.
      change (53 - 53) with 0. rewrite Z.pow_0_r, Z.mul_1_r, Pos2Z.id. reflexivity.
    + destruct (shl_align_down m e (d + e - 53)) as (mz & -> & Hmz); [lia|].
      replace (e - (d + e - 53)) with (53 - d) in Hmz by lia.
      assert (Hdz : Zpos (digits2_pos mz) = 53).
      { replace mz with (Z.to_pos (Zpos m * 2 ^ (53 - d))) by (rewrite <- Hmz; apply Pos2Z.id).
        rewrite digits2_shift by lia. fold d. lia. }
      rewrite binary_round_aux_canonical by lia.
      rewrite <- Hmz, Pos2Z.id. reflexivity.
  - rewrite shl_align_keep by lia.
    apply binary_round_aux_shift; fold d; lia.
Qed.

Lemma valid_finite_inv (s : bool) (m : positive) (e : Z) :
  valid (S754_finite s m e) = true ->
  Zpos (digits2_pos m) <= 53 /\ -1074 <= e <= 971 /\
  (Zpos (digits2_pos m) = 53 \/ e = -1074).
Proof.
  unfold valid, valid_binary, bounded, canonical_mantissa, fexp, emin, prec, emax.
  intros H. apply andb_prop in H as [H1 H2].
  apply Z.eqb_eq in H1. apply Z.leb_le in H2. lia.
Qed.

Lemma shl_align_fst (m : positive) (e e' : Z) :
  e' <= e -> Zpos (fst (shl_align m e e')) = Zpos m * 2 ^ (e - e').
Proof.
  intros H. destruct (Z.eq_dec e e') as [->|N].
  - rewrite shl_align_keep by lia. rewrite Z.sub_diag, Z.pow_0_r. cbn [fst]. lia.
  - destruct (shl_align_down m e e') as (mz & -> & Hmz); [lia|]. exact Hmz.
Qed.

(** Adding 1 to a positive number whose exponent is at least -52. *)
Lemma add_one_sum (m : positive) (e : Z) :
  -52 <= e ->
  add (S754_finite false m e) one =
  binary_round prec emax false (Z.to_pos (Zpos m * 2 ^ (e + 52) + 2 ^ 52)) (-52).
Proof.
  intros He.
  change one with (S754_finite false 4503599627370496 (-52)).
  unfold add. cbn [SFadd]. rewrite Z.min_r by lia.
  cbn [cond_Zopp]. rewrite shl_align_fst by lia.
  rewrite (shl_align_keep 4503599627370496 (-52) (-52)) by lia. cbn [fst].
  replace (e - -52) with (e + 52) by lia.
  change (Zpos 4503599627370496) with (2 ^ 52).
  assert (Hp : 0 < 2 ^ (e + 52)) by (apply Z.pow_pos_nonneg; lia).
  destruct (Zpos m * 2 ^ (e + 52) + 2 ^ 52) as [|p|p] eqn:E; try lia.
  reflexivity.
Qed.

(** From exponent 2 on, the spacing of numbers is at least 4 and adding
    1 rounds back to the same number. *)
Lemma add_one_large (m : positive) (e : Z) :
  Zpos (digits2_pos m) = 53 -> 2 <= e <= 971 ->
  add (S754_finite false m e) one = S754_finite false m e.
Proof.
  intros Hd He. rewrite add_one_sum by lia.
  pose proof (digits2_bounds m) as [Blo Bhi]. rewrite Hd in Blo, Bhi.
  change (53 - 1) with 52 in Blo.
  set (P := 2 ^ (e + 51)).
  assert (HP : 2 ^ 53 <= P) by (apply Z.pow_le_mono_r; lia).
  assert (EP : 2 ^ (e + 52) = 2 * P)
    by (unfold P; rewrite <- Z.pow_succ_r by lia; f_equal; lia).
  rewrite EP.
  set (S := Zpos m * (2 * P) + 2 ^ 52).
  assert (HS : 0 < S) by (unfold S; lia).
  assert (Hdig : Zpos (digits2_pos (Z.to_pos S)) = 53 + (e + 52)).
  { apply digits2_unique. rewrite Z2Pos.id by lia.
    replace (53 + (e + 52) - 1) with (52 + (e + 52)) by lia.
    rewrite (Z.pow_add_r 2 52 (e + 52)), (Z.pow_add_r 2 53 (e + 52)), EP by lia.
    unfold S. nia. }
  rewrite binary_round_normal by (rewrite Hdig; lia).
  rewrite Hdig, Z2Pos.id by lia.
  replace (53 + (e + 52) <=? 53) with false by (symmetry; apply Z.leb_gt; lia).
  replace (53 + (e + 52) - 53) with (e + 52) by lia.
  assert (Hdiv : S / (2 * P) = Zpos m).
  { unfold S. rewrite Z.div_add_l by lia. rewrite Z.div_small by lia. lia. }
  assert (Hbit : Z.testbit S (e + 52 - 1) = false).
  { apply Z.testbit_false; [lia|]. replace (e + 52 - 1) with (e + 51) by lia. fold P.
    unfold S. replace (Zpos m * (2 * P) + 2 ^ 52) with (Zpos m * 2 * P + 2 ^ 52) by lia.
    rewrite Z.div_add_l by lia. rewrite (Z.div_small (2 ^ 52)) by lia.
    rewrite Z.add_0_r. apply Z.mod_mul. lia. }
  rewrite rne_no_round_bit by assumption.
  rewrite EP, Hdiv.
  replace (Zpos m =? 2 ^ 53) with false by (symmetry; apply Z.eqb_neq; lia).
  replace (53 + (e + 52) + -52 - 53) with e by lia.
  replace (e <=? 971) with true by (symmetry; apply Z.leb_le; lia).
  rewrite Pos2Z.id. reflexivity.
Qed.

(** At exponent 1 the sum is a tie between two even numbers. *)
Lemma add_one_tie (m : positive) :
  Zpos (digits2_pos m) = 53 ->
  exists M E, add (S754_finite false m 1) one = S754_finite false M E /\ 1 <= E.
Proof.
  intros Hd. rewrite add_one_sum by lia.
  pose proof (digits2_bounds m) as [Blo Bhi]. rewrite Hd in Blo, Bhi.
  change (53 - 1) with 52 in Blo. change (1 + 52) with 53.
  set (S := Zpos m * 2 ^ 53 + 2 ^ 52).
  assert (HS : 0 < S) by (unfold S; lia).
  assert (Hdig : Zpos (digits2_pos (Z.to_pos S)) = 106).
  { apply digits2_unique. rewrite Z2Pos.id by lia. unfold S.
    change (2 ^ (106 - 1)) with (2 ^ 52 * 2 ^ 53).
    change (2 ^ 106) with (2 ^ 53 * 2 ^ 53). lia. }
  rewrite binary_round_normal by (rewrite Hdig; lia).
  rewrite Hdig. cbn [Z.leb Z.compare Pos.compare Pos.compare_cont].
  change (106 - 53) with 53. change (106 + -52 - 53 + 1) with 2.
  change (106 + -52 - 53) with 1. cbn [Z.leb Z.compare Pos.compare Pos.compare_cont].
  destruct (rne (Zpos (Z.to_pos S)) 53 =? 2 ^ 53); eexists _, _; split;
    try reflexivity; lia.
Qed.

(** Below 2^53 integers are represented exactly, and so is their
    successor. *)
Lemma add_one_small (m : positive) (e : Z) :
  -52 <= e <= 0 -> Zpos m mod 2 ^ (- e) = 0 -> Zpos m < 2 ^ (53 - e) ->
  exists M E, add (S754_finite false m e) one = S754_finite false M E /\
    -52 < E /\ (0 <= E \/ Zpos M mod 2 ^ (- E) = 0).
Proof.
  intros He Hint Hlt. rewrite add_one_sum by lia.
  set (Q := 2 ^ (- e)). assert (HQ : 0 < Q) by (apply Z.pow_pos_nonneg; lia).
  set (n := Zpos m / Q).
  assert (Hm : Zpos m = n * Q).
  { unfold n. pose proof (Z.div_mod (Zpos m) Q ltac:(lia)) as D.
    fold Q in Hint. rewrite Hint in D. lia. }
  assert (Hn : 1 <= n < 2 ^ 53).
  { assert (EQ : 2 ^ (53 - e) = 2 ^ 53 * Q)
      by (unfold Q; rewrite <- Z.pow_add_r by lia; f_equal; lia).
    rewrite EQ in Hlt. split; nia. }
  assert (ES : Zpos m * 2 ^ (e + 52) + 2 ^ 52 = (n + 1) * 2 ^ 52).
  { assert (E52 : 2 ^ 52 = Q * 2 ^ (e + 52))
      by (unfold Q; rewrite <- Z.pow_add_r by lia; f_equal; lia).
    rewrite Hm, E52. ring. }
  rewrite ES. clear ES.
  set (N := n + 1). assert (HN : 2 <= N <= 2 ^ 53) by (unfold N; lia).
  set (L := Z.log2 N).
  destruct (Z.log2_spec N ltac:(lia)) as [Llo Lhi]. fold L in Llo, Lhi.
  assert (HL : 1 <= L <= 53).
  { split.
    - unfold L. change 1 with (Z.log2 2). apply Z.log2_le_mono. lia.
    - unfold L. change 53 with (Z.log2 (2 ^ 53)). apply Z.log2_le_mono. lia. }
  rewrite Z.pow_succ_r in Lhi by lia.
  set (S := N * 2 ^ 52). assert (HS : 0 < S) by (unfold S; lia).
  assert (Hdig : Zpos (digits2_pos (Z.to_pos S)) = L + 53).
  { apply digits2_unique. rewrite Z2Pos.id by lia. unfold S.
    replace (L + 53 - 1) with (L + 52) by lia.
    rewrite !Z.pow_add_r by lia. change (2 ^ 53) with (2 * 2 ^ 52). nia. }
  rewrite binary_round_normal by (rewrite Hdig; lia).
  rewrite Hdig, Z2Pos.id by lia.
  replace (L + 53 <=? 53) with false by (symmetry; apply Z.leb_gt; lia).
  replace (L + 53 - 53) with L by lia.
  replace (L + 53 + -52 - 53) with (L - 52) by lia.
  assert (Hbit : Z.testbit S (L - 1) = false).
  { destruct (Z.eq_dec L 53) as [E53|N53].
    - assert (N = 2 ^ 53) by (rewrite E53 in Llo; lia).
      unfold S. rewrite H, E53. reflexivity.
    - unfold S. apply Z.mul_pow2_bits_low. lia. }
  rewrite rne_no_round_bit by assumption.
  assert (HP : 0 < 2 ^ L) by (apply Z.pow_pos_nonneg; lia).
  assert (Hq : 2 ^ 52 <= S / 2 ^ L < 2 ^ 53).
  { unfold S. split.
    - apply Z.div_le_lower_bound; nia.
    - apply Z.div_lt_upper_bound; [lia|]. change (2 ^ 53) with (2 * 2 ^ 52). nia. }
  replace (S / 2 ^ L =? 2 ^ 53) with false by (symmetry; apply Z.eqb_neq; lia).
  replace (L - 52 <=? 971) with true by (symmetry; apply Z.leb_le; lia).
  eexists _, _. split; [reflexivity|]. split; [lia|].
  destruct (Z_le_gt_dec 52 L) as [Hge|Hlt52]; [left; lia|right].
  rewrite Z2Pos.id by lia.
  replace (- (L - 52)) with (52 - L) by lia.
  assert (E52 : 2 ^ 52 = 2 ^ (52 - L) * 2 ^ L)
    by (rewrite <- Z.pow_add_r by lia; f_equal; lia).
  unfold S. rewrite E52, Z.mul_assoc, Z.div_mul by lia.
  apply Z.mod_mul. apply Z.pow_nonzero; lia.
Qed.

Lemma one_based_finite (M : positive) (E : Z) :
  -52 < E -> (0 <= E \/ Zpos M mod 2 ^ (- E) = 0) ->
  one_based (S754_finite false M E).
Proof.
  intros HE Hint. split.
  - cbn [is_integer]. destruct Hint as [H|H].
    + apply Z.leb_le in H. rewrite H. reflexivity.
    + rewrite H, Z.eqb_refl. apply orb_true_r.
  - change one with (S754_finite false 4503599627370496 (-52)).
    unfold le, SFleb. cbn [SFcompare].
    destruct (Z.compare_spec (-52) E); first [reflexivity | lia].
Qed.

(** Rounding a positive number with a fractional part: zero, or an
    integer below 2^53 in canonical form. *)
Lemma Math_round_pos_frac (m : positive) (e : Z) :
  valid (S754_finite false m e) = true -> e < 0 ->
  Math_round (S754_finite false m e) = S754_zero false \/
  exists M E, Math_round (S754_finite false m e) = S754_finite false M E /\
    -52 <= E <= 0 /\ Zpos M mod 2 ^ (- E) = 0 /\ Zpos M < 2 ^ (53 - E).
Proof.
  intros Hv He. apply valid_finite_inv in Hv as (Hd & Hr & _).
  pose proof (digits2_bounds m) as [_ Bhi].
  assert (Hm : Zpos m < 2 ^ 53).
  { eapply Z.lt_le_trans; [exact Bhi|]. apply Z.pow_le_mono_r; lia. }
  unfold Math_round. replace (0 <=? e) with false by (symmetry; apply Z.leb_gt; lia).
  cbn [cond_Zopp]. cbv zeta.
  set (P := 2 ^ (- e)).
  assert (HP : 2 <= P).
  { unfold P. change 2 with (2 ^ 1) at 1. apply Z.pow_le_mono_r; lia. }
  replace (2 ^ (- e + 1)) with (2 * P)
    by (unfold P; rewrite Z.pow_add_r by lia; lia).
  set (z := (2 * Zpos m + P) / (2 * P)).
  assert (Hz : 0 <= z <= 2 ^ 52).
  { unfold z. split.
    - apply Z.div_pos; lia.
    - apply Z.lt_succ_r. apply Z.div_lt_upper_bound; [lia|]. nia. }
  destruct (Z.eqb_spec z 0) as [Z0|NZ]; [left; reflexivity|right].
  destruct z as [|zp|zp] eqn:Ez; try lia.
  cbn [binary_normalize].
  pose proof (digits2_bounds zp) as [Zlo Zhi].
  set (d := Zpos (digits2_pos zp)) in *.
  assert (Hdz : 1 <= d <= 53).
  { split; [unfold d; lia|].
    destruct (Z_le_gt_dec d 53) as [|Hgt]; [assumption|exfalso].
    assert (2 ^ 53 <= 2 ^ (d - 1)) by (apply Z.pow_le_mono_r; lia). lia. }
  rewrite binary_round_normal by (fold d; lia). fold d.
  replace (d <=? 53) with true by (symmetry; apply Z.leb_le; lia).
  replace (d + 0 - 53 <=? 971) with true by (symmetry; apply Z.leb_le; lia).
  assert (Hp : 0 < 2 ^ (53 - d)) by (apply Z.pow_pos_nonneg; lia).
  eexists _, _. split; [reflexivity|].
  rewrite Z2Pos.id by lia.
  replace (- (d + 0 - 53)) with (53 - d) by lia.
  split; [lia|]. split.
  - apply Z.mod_mul. lia.
  - replace (53 - (d + 0 - 53)) with (d + (53 - d) + (53 - d)) by lia.
    rewrite !Z.pow_add_r by lia.
    assert (0 < 2 ^ d) by (apply Z.pow_pos_nonneg; lia). nia.
Qed.

(** A negative number no smaller than -0.5 rounds to -0. *)
Lemma Math_round_neg_half (m : positive) (e : Z) :
  valid (S754_finite true m e) = true ->
  le neg_half (S754_finite true m e) = true ->
  Math_round (S754_finite true m e) = S754_zero true.
Proof.
  intros Hv Hle. apply valid_finite_inv in Hv as (Hd & Hr & _).
  pose proof (digits2_bounds m) as [_ Bhi].
  assert (Hm : Zpos m < 2 ^ 53).
  { eapply Z.lt_le_trans; [exact Bhi|]. apply Z.pow_le_mono_r; lia. }
  assert (Hcases : e < -53 \/ (e = -53 /\ Zpos m <= 2 ^ 52)).
  { unfold le, neg_half, SFleb in Hle. cbn [SFcompare] in Hle.
    destruct (Z.compare_spec (-53) e) as [E|E|E]; try discriminate; [right|left; lia].
    split; [lia|].
    rewrite Pos.compare_cont_spec in Hle. cbn [Pos.switch_Eq] in Hle.
    change (2 ^ 52) with 4503599627370496.
    revert Hle.
    destruct (Pos.compare_spec 4503599627370496 m) as [C|C|C];
      cbv [CompOpp]; intros Hle; [ | discriminate Hle | ].
    - rewrite <- C. apply Z.le_refl.
    - apply Z.lt_le_incl, Pos2Z.pos_lt_pos, C. }
  unfold Math_round. replace (0 <=? e) with false by (symmetry; apply Z.leb_gt; lia).
  cbn [cond_Zopp]. cbv zeta.
  set (P := 2 ^ (- e)).
  assert (HP : 2 ^ 53 <= P) by (unfold P; apply Z.pow_le_mono_r; lia).
  assert (HP' : e < -53 -> 2 ^ 54 <= P) by (intros; unfold P; apply Z.pow_le_mono_r; lia).
  replace (2 ^ (- e + 1)) with (2 * P)
    by (unfold P; rewrite Z.pow_add_r by lia; lia).
  rewrite Z.div_small; [reflexivity|].
  change (2 ^ 54) with (2 * 2 ^ 53) in HP'. change (2 ^ 53) with (2 * 2 ^ 52) in *.
  destruct Hcases as [H|[H1 H2]]; [specialize (HP' H)|]; lia.
Qed.

(** The coordinate expression [(Math.round(n) || 0) + 1]. *)
Lemma coordinate_one_based (n : number) :
  valid n = true ->
  n = S754_nan \/ (is_finite n = true /\ le neg_half n = true) ->
  one_based (add (number_or (Math_round n) (of_Z 0)) (of_Z 1)).
Proof.
  intros Hv Hn.
  assert (Hone : one_based (add (of_Z 0) (of_Z 1))) by (split; reflexivity).
  destruct n as [s|s| |s m e].
  - exact Hone.
  - destruct Hn as [Hn|[Hn _]]; discriminate.
  - exact Hone.
  - destruct Hn as [Hn|[_ Hle]]; [discriminate|].
    destruct s.
    + rewrite Math_round_neg_half by assumption. exact Hone.
    + destruct (Z_lt_le_dec e 0) as [Hneg|Hpos].
      * destruct (Math_round_pos_frac m e Hv Hneg) as [->|(M & E & -> & HE & Hint & Hlt)];
          [exact Hone|].
        cbn [number_or number_truthy]. fold one.
        destruct (add_one_small M E HE Hint Hlt) as (M' & E' & -> & H1 & H2).
        apply one_based_finite; assumption.
      * unfold Math_round. replace (0 <=? e) with true by (symmetry; apply Z.leb_le; lia).
        cbn [number_or number_truthy]. fold one.
        apply valid_finite_inv in Hv as (Hd & Hr & [Hd53|He]); [|lia].
        pose proof (digits2_bounds m) as [_ Bhi]. rewrite Hd53 in Bhi.
        destruct (Z.eq_dec e 0) as [->|N0];
          [|destruct (Z.eq_dec e 1) as [->|N1]].
        -- destruct (add_one_small m 0) as (M' & E' & -> & H1 & H2);
             [lia|apply Z.mod_1_r|exact Bhi|].
           apply one_based_finite; assumption.
        -- destruct (add_one_tie m Hd53) as (M' & E' & -> & H1).
           apply one_based_finite; lia.
        -- rewrite add_one_large by lia. apply one_based_finite; lia.
Qed.

End NumberFacts.

(** ** The numeric fields of the record mapper *)

Module MapperFacts.
Import JS NumberFacts.

(** Rounding a non-zero integer literal never gives NaN nor zero. *)
Lemma binary_round_int_truthy (s : bool) (p : positive) :
  number_truthy (binary_round prec emax s p 0) = true.
Proof.
  pose proof (Pos2Z.is_pos (digits2_pos p)) as Hd.
  rewrite binary_round_normal by lia.
  repeat match goal with
         | |- context [if ?c then _ else _] => destruct c
         end; reflexivity.
Qed.

Lemma Math_round_nan (n : number) : Math_round n = S754_nan -> n = S754_nan.
Proof.
  destruct n as [s|s| |s m e]; try discriminate; [reflexivity|].
  unfold Math_round. destruct (0 <=? e); [discriminate|]. cbv zeta.
  destruct (_ =? 0); [discriminate|].
  destruct ((2 * cond_Zopp s (Zpos m) + 2 ^ (- e)) / 2 ^ (- e + 1)) as [|p|p];
    cbn [binary_normalize]; try discriminate; intros H; exfalso.
  - pose proof (binary_round_int_truthy false p) as T. rewrite H in T. discriminate.
  - pose proof (binary_round_int_truthy true p) as T. rewrite H in T. discriminate.
Qed.

(** [(Math.round(n) || 0) + 1] is 1 for NaN and [Math.round(n) + 1]
    otherwise. *)
Lemma coordinate_value (n : number) :
  add (number_or (Math_round n) (of_Z 0)) (of_Z 1) =
  match n with
  | S754_nan => of_Z 1
  | _ => add (Math_round n) (of_Z 1)
  end.
Proof.
  destruct n as [s|s| |s m e]; try reflexivity.
  destruct (Math_round (S754_finite s m e)) as [s'|s'| |s' m' e'] eqn:E;
    try reflexivity.
  apply Math_round_nan in E. discriminate.
Qed.

(** [Math.round(n) || d] is [d] for NaN and for a number that rounds to
    zero, and [Math.round(n)] otherwise. *)
Lemma span_value (n d : number) :
  number_or (Math_round n) d =
  match n with
  | S754_nan => d
  | _ => if is_zero (Math_round n) then d else Math_round n
  end.
Proof.
  destruct n as [s|s| |s m e]; try reflexivity.
  destruct (Math_round (S754_finite s m e)) as [s'|s'| |s' m' e'] eqn:E;
    try reflexivity.
  apply Math_round_nan in E. discriminate.
Qed.

End MapperFacts.

(** ** The record mapper *)

(** C1 (as amended): for every source record, in both widgets the
    default (2 for [w], 1 for [h]) is substituted exactly when the field
    converts to NaN (missing or not a numeric literal) or to a number
    that rounds to zero; in every other case, the infinities included,
    the mapped value is [Math.round] of the converted field. *)
Theorem size_defaults (rec : SourceRecord) :
  let W := JS.Number (JS.get "W" rec) in
  let H := JS.Number (JS.get "H" rec) in
  let sized (n d : JS.number) : JS.number :=
    match n with
    | S754_nan => d
    | _ => if JS.is_zero (JS.Math_round n) then d else JS.Math_round n
    end in
  CanvasWidget.w (CanvasWidget.mapRecord rec) = sized W (JS.of_Z 2) /\
  CanvasWidget.h (CanvasWidget.mapRecord rec) = sized H (JS.of_Z 1) /\
  GridWidget.w (GridWidget.mapRecord rec) = sized W (JS.of_Z 2) /\
  GridWidget.h (GridWidget.mapRecord rec) = sized H (JS.of_Z 1).
Proof.
  intros W H sized. unfold sized, W, H.
  repeat split; apply MapperFacts.span_value.
Qed.

(** C1 as stated fails: a width and height of 0 are finite and round to
    0, yet the mapped size is the default 2 by 1; and the field
    ["Infinity"] is not finite, yet it is mapped to Infinity and not to
    the default. *)
Lemma size_defaults_counterexample :
  (JS.is_finite (JS.Number (JS.get "W" Inputs.zero_size_record)) = true /\
   JS.Math_round (JS.Number (JS.get "W" Inputs.zero_size_record)) = JS.of_Z 0 /\
   CanvasWidget.w (CanvasWidget.mapRecord Inputs.zero_size_record) = JS.of_Z 2 /\
   GridWidget.w (GridWidget.mapRecord Inputs.zero_size_record) = JS.of_Z 2 /\
   CanvasWidget.h (CanvasWidget.mapRecord Inputs.zero_size_record) = JS.of_Z 1 /\
   JS.of_Z 2 <> JS.of_Z 0 /\ JS.of_Z 1 <> JS.of_Z 0) /\
  (JS.is_finite (JS.Number (JS.get "W" Inputs.infinite_size_record)) = false /\
   CanvasWidget.w (CanvasWidget.mapRecord Inputs.infinite_size_record) = JS.Infinity /\
   GridWidget.w (GridWidget.mapRecord Inputs.infinite_size_record) = JS.Infinity /\
   CanvasWidget.h (CanvasWidget.mapRecord Inputs.infinite_size_record) = JS.Infinity /\
   JS.Infinity <> JS.of_Z 2 /\ JS.Infinity <> JS.of_Z 1).
Proof.
  repeat split; try (vm_compute; reflexivity); vm_compute; discriminate.
Qed.

(** C10: a [W] (respectively [H]) that converts to a finite number
    rounding to zero is mapped to the default 2 (respectively 1), as a
    record without the field is. *)
Theorem zero_size_absorbed (rec : SourceRecord) :
  (JS.is_finite (JS.Number (JS.get "W" rec)) = true ->
   JS.is_zero (JS.Math_round (JS.Number (JS.get "W" rec))) = true ->
   CanvasWidget.w (CanvasWidget.mapRecord rec) = JS.of_Z 2 /\
   GridWidget.w (GridWidget.mapRecord rec) = JS.of_Z 2 /\
   forall rec' : SourceRecord, JS.get "W" rec' = JS.VUndefined ->
     CanvasWidget.w (CanvasWidget.mapRecord rec') =
       CanvasWidget.w (CanvasWidget.mapRecord rec) /\
     GridWidget.w (GridWidget.mapRecord rec') =
       GridWidget.w (GridWidget.mapRecord rec)) /\
  (JS.is_finite (JS.Number (JS.get "H" rec)) = true ->
   JS.is_zero (JS.Math_round (JS.Number (JS.get "H" rec))) = true ->
   CanvasWidget.h (CanvasWidget.mapRecord rec) = JS.of_Z 1 /\
   GridWidget.h (GridWidget.mapRecord rec) = JS.of_Z 1 /\
   forall rec' : SourceRecord, JS.get "H" rec' = JS.VUndefined ->
     CanvasWidget.h (CanvasWidget.mapRecord rec') =
       CanvasWidget.h (CanvasWidget.mapRecord rec) /\
     GridWidget.h (GridWidget.mapRecord rec') =
       GridWidget.h (GridWidget.mapRecord rec)).
Proof.
  split; intros Hfin Hzero.
  - assert (E : JS.number_or (JS.Math_round (JS.Number (JS.get "W" rec))) (JS.of_Z 2)
                = JS.of_Z 2).
    { destruct (JS.Math_round (JS.Number (JS.get "W" rec))); try discriminate.
      reflexivity. }
    split; [exact E|]. split; [exact E|].
    intros rec' Hmiss. unfold CanvasWidget.mapRecord, GridWidget.mapRecord.
    cbn [CanvasWidget.w GridWidget.w]. rewrite Hmiss, E. split; reflexivity.
  - assert (E : JS.number_or (JS.Math_round (JS.Number (JS.get "H" rec))) (JS.of_Z 1)
                = JS.of_Z 1).
    { destruct (JS.Math_round (JS.Number (JS.get "H" rec))); try discriminate.
      reflexivity. }
    split; [exact E|]. split; [exact E|].
    intros rec' Hmiss. unfold CanvasWidget.mapRecord, GridWidget.mapRecord.
    cbn [CanvasWidget.h GridWidget.h]. rewrite Hmiss, E. split; reflexivity.
Qed.

(** The sample record has [W = "0.4"] and [H = -0]. *)
Lemma zero_size_absorbed_witness :
  (CanvasWidget.w (CanvasWidget.mapRecord Inputs.sample_record) = JS.of_Z 2 /\
   GridWidget.w (GridWidget.mapRecord Inputs.sample_record) = JS.of_Z 2) /\
  (CanvasWidget.h (CanvasWidget.mapRecord Inputs.sample_record) = JS.of_Z 1 /\
   GridWidget.h (GridWidget.mapRecord Inputs.sample_record) = JS.of_Z 1).
Proof.
  destruct (zero_size_absorbed Inputs.sample_record) as [HW HH].
  destruct HW as (w1 & w2 & _); [vm_compute; reflexivity | vm_compute; reflexivity |].
  destruct HH as (h1 & h2 & _); [vm_compute; reflexivity | vm_compute; reflexivity |].
  exact (conj (conj w1 w2) (conj h1 h2)).
Defined.

(** C3 (as amended): for every source record, in both widgets the
    mapped position is 1 when the field converts to NaN (missing or not
    a numeric literal) and [Math.round(X) + 1] in binary64 arithmetic
    otherwise; the infinities are not replaced by 0. *)
Theorem position_offset (rec : SourceRecord) :
  let X := JS.Number (JS.get "X" rec) in
  let Y := JS.Number (JS.get "Y" rec) in
  let placed (n : JS.number) : JS.number :=
    match n with
    | S754_nan => JS.of_Z 1
    | _ => JS.add (JS.Math_round n) (JS.of_Z 1)
    end in
  CanvasWidget.x (CanvasWidget.mapRecord rec) = placed X /\
  CanvasWidget.y (CanvasWidget.mapRecord rec) = placed Y /\
  GridWidget.x (GridWidget.mapRecord rec) = placed X /\
  GridWidget.y (GridWidget.mapRecord rec) = placed Y.
Proof.
  intros X Y placed. unfold placed, X, Y.
  repeat split; apply MapperFacts.coordinate_value.
Qed.

(** The two examples given with the position rule: [X = 3.6] is placed
    at 5 and [X = "bad"] at 1. *)
Example position_offset_examples :
  CanvasWidget.x (CanvasWidget.mapRecord [("X", JS.VNumber (JS.StringToNumber "3.6"))]%string)
    = JS.of_Z 5 /\
  GridWidget.x (GridWidget.mapRecord [("X", JS.VNumber (JS.StringToNumber "3.6"))]%string)
    = JS.of_Z 5 /\
  CanvasWidget.x (CanvasWidget.mapRecord [("X", JS.VString "bad")]%string) = JS.of_Z 1 /\
  GridWidget.x (GridWidget.mapRecord [("X", JS.VString "bad")]%string) = JS.of_Z 1.
Proof. repeat split; vm_compute; reflexivity. Qed.

(** C3 as stated fails: the field ["Infinity"] converts to a non-finite
    number, and the mapped position is Infinity, not 0 + 1. *)
Lemma position_offset_counterexample :
  JS.is_finite (JS.Number (JS.get "X" Inputs.infinite_position_record)) = false /\
  CanvasWidget.x (CanvasWidget.mapRecord Inputs.infinite_position_record) = JS.Infinity /\
  CanvasWidget.y (CanvasWidget.mapRecord Inputs.infinite_position_record) = JS.Infinity /\
  GridWidget.x (GridWidget.mapRecord Inputs.infinite_position_record) = JS.Infinity /\
  GridWidget.y (GridWidget.mapRecord Inputs.infinite_position_record) = JS.Infinity /\
  JS.Infinity <> JS.add (JS.Math_round (JS.of_Z 0)) (JS.of_Z 1).
Proof.
  repeat split; try (vm_compute; reflexivity); vm_compute; discriminate.
Qed.

(** C9 (as amended): for every source record whose [X] and [Y] convert
    to NaN (missing or not numeric) or to a finite number that is at
    least -0.5, the mapped [x] and [y] are integers that are at least
    1. *)
Theorem coordinates_one_based (rec : SourceRecord) :
  let X := JS.Number (JS.get "X" rec) in
  let Y := JS.Number (JS.get "Y" rec) in
  JS.valid X = true ->
  X = JS.NaN \/ (JS.is_finite X = true /\ JS.le JS.neg_half X = true) ->
  JS.valid Y = true ->
  Y = JS.NaN \/ (JS.is_finite Y = true /\ JS.le JS.neg_half Y = true) ->
  JS.one_based (CanvasWidget.x (CanvasWidget.mapRecord rec)) /\
  JS.one_based (CanvasWidget.y (CanvasWidget.mapRecord rec)) /\
  JS.one_based (GridWidget.x (GridWidget.mapRecord rec)) /\
  JS.one_based (GridWidget.y (GridWidget.mapRecord rec)).
Proof.
  intros X Y VX HX VY HY.
  pose proof (NumberFacts.coordinate_one_based X VX HX) as PX.
  pose proof (NumberFacts.coordinate_one_based Y VY HY) as PY.
  exact (conj PX (conj PY (conj PX PY))).
Qed.

(** The sample record has [X = "3.6"] and [Y = "bad"]. *)
Lemma coordinates_one_based_witness :
  JS.one_based (CanvasWidget.x (CanvasWidget.mapRecord Inputs.sample_record)) /\
  JS.one_based (CanvasWidget.y (CanvasWidget.mapRecord Inputs.sample_record)) /\
  JS.one_based (GridWidget.x (GridWidget.mapRecord Inputs.sample_record)) /\
  JS.one_based (GridWidget.y (GridWidget.mapRecord Inputs.sample_record)).
Proof.
  apply (coordinates_one_based Inputs.sample_record).
  - vm_compute; reflexivity.
  - right. split; vm_compute; reflexivity.
  - vm_compute; reflexivity.
  - left. vm_compute; reflexivity.
Defined.

(** C9 as stated fails: [X = -5] is mapped to [x = -4], which is below
    1. *)
Lemma coordinates_one_based_counterexample :
  CanvasWidget.x (CanvasWidget.mapRecord Inputs.negative_position_record)
    = JS.of_Z (-4) /\
  GridWidget.x (GridWidget.mapRecord Inputs.negative_position_record)
    = JS.of_Z (-4) /\
  JS.le JS.one (JS.of_Z (-4)) = false /\
  ~ JS.one_based (CanvasWidget.x (CanvasWidget.mapRecord Inputs.negative_position_record)) /\
  ~ JS.one_based (GridWidget.y (GridWidget.mapRecord Inputs.negative_position_record)).
Proof.
  repeat split; try (vm_compute; reflexivity);
    intros [_ H]; vm_compute in H; discriminate.
Qed.

(** ** The element dispatcher *)

Module DispatchFacts.
Import JS CanvasWidget.

Lemma is_Menu_true (v : value) :
  is_Menu v = true <-> v = VString "Menu".
Proof.
  destruct v; cbn [is_Menu]; split; intros H; try discriminate.
  - apply String.eqb_eq in H. now subst.
  - injection H as ->. reflexivity.
Qed.

Lemma is_array_longer_than_one_true (v : value) :
  is_array_longer_than_one v = true <->
  exists l, v = VArray l /\ (1 < List.length l)%nat.
Proof.
  destruct v as [| | | | |arr|]; cbn [is_array_longer_than_one]; split; intros H;
    try discriminate; try (destruct H as (l & H & _); discriminate).
  - exists arr. split; [reflexivity|]. apply Nat.ltb_lt. exact H.
  - destruct H as (l & H & Hl). injection H as ->. apply Nat.ltb_lt. exact Hl.
Qed.

End DispatchFacts.

(** C2 (as amended): for every tile view-model the dispatcher selects
    the menu sub-renderer if and only if [type] is the string ["Menu"]
    and [pages] is an array with more than one element (so that its
    second element exists); the number of sub-records in that second
    element plays no part.  In every other case it selects the default
    sub-renderer, and the tile is passed on unchanged. *)
Theorem element_dispatch (item : CanvasWidget.Tile) :
  (CanvasWidget.element_type (CanvasWidget.Element item) = CanvasWidget.MenuComponent
   <-> (CanvasWidget.type item = JS.VString "Menu" /\
        exists l, CanvasWidget.pages item = JS.VArray l /\ (1 < List.length l)%nat)) /\
  (CanvasWidget.element_type (CanvasWidget.Element item) = CanvasWidget.DefaultComponent
   <-> ~ (CanvasWidget.type item = JS.VString "Menu" /\
          exists l, CanvasWidget.pages item = JS.VArray l /\ (1 < List.length l)%nat)) /\
  CanvasWidget.item_prop (CanvasWidget.Element item) = item.
Proof.
  unfold CanvasWidget.Element.
  pose proof (DispatchFacts.is_Menu_true (CanvasWidget.type item)) as HM.
  pose proof (DispatchFacts.is_array_longer_than_one_true (CanvasWidget.pages item)) as HA.
  destruct (CanvasWidget.is_Menu (CanvasWidget.type item));
    destruct (CanvasWidget.is_array_longer_than_one (CanvasWidget.pages item));
    cbn [andb CanvasWidget.element_type CanvasWidget.item_prop];
    (split; [|split; [|reflexivity]]); split; intros H;
    try discriminate; try reflexivity.
  - split; [apply HM | apply HA]; reflexivity.
  - exfalso. apply H. split; [apply HM | apply HA]; reflexivity.
  - destruct H as [_ H]. apply HA in H. discriminate.
  - intros [_ H']. apply HA in H'. discriminate.
  - destruct H as [H _]. apply HM in H. discriminate.
  - intros [H' _]. apply HM in H'. discriminate.
  - destruct H as [H _]. apply HM in H. discriminate.
  - intros [H' _]. apply HM in H'. discriminate.
Qed.

(** C2 as stated fails: a menu tile whose sub-record list has exactly
    one entry is dispatched to the menu sub-renderer, which lists that
    one entry. *)
Lemma element_dispatch_counterexample :
  CanvasWidget.type Inputs.single_page_menu = JS.VString "Menu" /\
  CanvasWidget.pages Inputs.single_page_menu
    = JS.VArray [JS.VString "Pages"; JS.VArray [Inputs.page 1 "Home"]] /\
  List.length [Inputs.page 1 "Home"] = 1%nat /\
  CanvasWidget.element_type (CanvasWidget.Element Inputs.single_page_menu)
    = CanvasWidget.MenuComponent /\
  CanvasWidget.element_type (CanvasWidget.Element Inputs.single_page_menu)
    <> CanvasWidget.DefaultComponent /\
  CanvasWidget.MenuElement Inputs.single_page_menu
    = JS.Ok [ {| CanvasWidget.key := JS.VNumber (JS.of_Z 1);
                 CanvasWidget.page_name := JS.VString "Home" |} ].
Proof.
  repeat split; try (vm_compute; reflexivity); vm_compute; discriminate.
Qed.

(** The menu of two pages lists exactly the entries "Home" and
    "About". *)
Example menu_two_entries :
  CanvasWidget.element_type (CanvasWidget.Element Inputs.two_page_menu)
    = CanvasWidget.MenuComponent /\
  CanvasWidget.MenuElement Inputs.two_page_menu
    = JS.Ok [ {| CanvasWidget.key := JS.VNumber (JS.of_Z 1);
                 CanvasWidget.page_name := JS.VString "Home" |};
              {| CanvasWidget.key := JS.VNumber (JS.of_Z 2);
                 CanvasWidget.page_name := JS.VString "About" |} ].
Proof. split; vm_compute; reflexivity. Qed.

(** ** The navigation handlers *)

Module NavigationFacts.
Import JS.


Lemma hash_target_truthy (s : string) :
  startsWith "#" s = true -> ToBoolean (VString s) = true.
Proof. destruct s; [discriminate|reflexivity]. Qed.

Lemma nonempty_truthy (s : string) :
  s <> EmptyString -> ToBoolean (VString s) = true.
Proof. destruct s; [congruence|reflexivity]. Qed.


Lemma substring_all (s : string) : String.substring 0 (String.length s) s = s.
Proof. induction s as [|c s IH]; cbn; [reflexivity|]. now rewrite IH. Qed.

Lemma substring_from_1 (c : ascii) (s : string) :
  substring_from 1 (String c s) = s.
Proof.
  unfold substring_from. cbn [String.length String.substring Nat.sub].
  rewrite Nat.sub_0_r. apply substring_all.
Qed.




(** The canvas handler on a hash target, in a same-origin frame and in
    a cross-origin one. *)
Lemma canvas_hash_target (eng : Browser.Engine) (win : Browser.Window) (s : string) :
  startsWith "#" s = true -> Browser.same_origin win = true ->
  CanvasWidget.handleNavigate eng win (VString s) =
  Ok [HistoryPushState
        (VString (Url.href (Url.set_hash (Browser.top_location win)
                              (substring_from 1 s))));
      DispatchPopState].
Proof.
  intros H Ho. unfold CanvasWidget.handleNavigate, Browser.read_top_location.
  rewrite hash_target_truthy by assumption. cbn [negb]. rewrite H, Ho. reflexivity.
Qed.

Lemma canvas_hash_target_blocked (eng : Browser.Engine) (win : Browser.Window)
  (s : string) :
  startsWith "#" s = true -> Browser.same_origin win = false ->
  exists msg,
    CanvasWidget.handleNavigate eng win (VString s)
    = Throw (Browser.SecurityError msg).
Proof.
  intros H Ho. unfold CanvasWidget.handleNavigate, Browser.read_top_location.
  rewrite hash_target_truthy by assumption. cbn [negb]. rewrite H, Ho.
  eexists. reflexivity.
Qed.

(** The canvas handler on any other non-empty string that the URL
    parser accepts. *)
Lemma canvas_other_target (eng : Browser.Engine) (win : Browser.Window)
  (s : string) (u : Url.URL) :
  s <> EmptyString -> startsWith "#" s = false ->
  Browser.resolve eng (Browser.self_location win) s = Some u ->
  CanvasWidget.handleNavigate eng win (VString s) = Ok [LocationAssignHref (VString s)] /\
  Browser.href_assign_url eng win s = Ok u.
Proof.
  intros Hne H Hr. unfold CanvasWidget.handleNavigate, Browser.href_assign_url.
  rewrite nonempty_truthy by assumption. cbn [negb]. rewrite H, Hr.
  split; reflexivity.
Qed.

(** The grid handler on a truthy target, in a same-origin frame and in
    a cross-origin one. *)
Lemma grid_target (eng : Browser.Engine) (win : Browser.Window) (url : value) :
  ToBoolean url = true -> Browser.same_origin win = true ->
  GridWidget.handleNavigate eng win url =
  match Browser.pushState_url eng win (Browser.ToString eng url) with
  | Throw e => Throw e
  | Ok _ => Ok [HistoryPushState url; DispatchPopState]
  end.
Proof.
  intros H Ho. unfold GridWidget.handleNavigate, Browser.read_top_location.
  rewrite H, Ho. cbn [negb]. unfold Browser.same_origin in Ho. rewrite Ho.
  reflexivity.
Qed.

Lemma grid_target_blocked (eng : Browser.Engine) (win : Browser.Window) (url : value) :
  ToBoolean url = true -> Browser.same_origin win = false ->
  exists msg,
    GridWidget.handleNavigate eng win url = Throw (Browser.SecurityError msg).
Proof.
  intros H Ho. unfold GridWidget.handleNavigate, Browser.read_top_location.
  rewrite H, Ho. cbn [negb]. eexists. reflexivity.
Qed.

(** [pushState] in a same-origin frame, on a non-empty string the URL
    parser accepts. *)
Lemma pushState_resolved (eng : Browser.Engine) (win : Browser.Window)
  (s : string) (u : Url.URL) :
  s <> EmptyString -> Browser.same_origin win = true ->
  Browser.resolve eng (Browser.top_location win) s = Some u ->
  Browser.pushState_url eng win s =
  if String.eqb (Url.origin u) (Url.origin (Browser.top_location win)) then Ok u
  else Throw (Browser.SecurityError "pushState: the URL has another origin").
Proof.
  intros Hne Ho Hr. unfold Browser.pushState_url. rewrite Ho. cbn [negb].
  destruct (String.eqb_spec s EmptyString); [contradiction|].
  rewrite Hr. reflexivity.
Qed.


End NavigationFacts.

(** The URL parser and [ToString] on concrete inputs. *)
Example strip_example :
  Browser.strip "  #p=Budget  " = "#p=Budget"%string /\
  Browser.strip " a b " = "a b"%string /\
  Browser.strip "   " = EmptyString.
Proof. repeat split. Qed.

Example resolve_example :
  Browser.resolve NavigationInputs.sample_engine Inputs.docs_url "  "
  = Some {| Url.origin := "https://docs.example";
            Url.pathname := "/o/docs/doc1/p/1";
            Url.query := Some "embed=true"%string;
            Url.fragment := None |} /\
  Browser.resolve NavigationInputs.sample_engine Inputs.docs_url " #a b "
  = Some {| Url.origin := "https://docs.example";
            Url.pathname := "/o/docs/doc1/p/1";
            Url.query := Some "embed=true"%string;
            Url.fragment := Some "a%20b"%string |} /\
  Browser.resolve NavigationInputs.sample_engine Inputs.docs_url
    NavigationInputs.unparsable_target = None.
Proof. repeat split. Qed.

Example ToString_example :
  Browser.ToString NavigationInputs.sample_engine
    (JS.VArray [JS.VNumber (JS.of_Z 1); JS.VNull;
                JS.VArray [JS.VString "a"; JS.VBool true]; JS.VUndefined])
  = "1,,a,true,"%string /\
  Browser.ToString NavigationInputs.sample_engine (JS.VArray []) = EmptyString /\
  Browser.ToString NavigationInputs.sample_engine (JS.VObject []) = "[object Object]"%string /\
  Browser.ToString NavigationInputs.sample_engine (JS.VBool false) = "false"%string /\
  Browser.ToString NavigationInputs.sample_engine (JS.VNumber (JS.of_Z (-7))) = "-7"%string.
Proof. repeat split. Qed.

(** [pushState] with the empty string keeps the document's URL; with a
    string that is no URL it throws. *)
Example pushState_example :
  Browser.pushState_url NavigationInputs.sample_engine Inputs.same_origin_window
    EmptyString = JS.Ok Inputs.docs_url /\
  GridWidget.handleNavigate NavigationInputs.sample_engine Inputs.same_origin_window
    (JS.VArray [])
  = JS.Ok [HistoryPushState (JS.VArray []); DispatchPopState] /\
  GridWidget.handleNavigate NavigationInputs.sample_engine Inputs.same_origin_window
    (JS.VString NavigationInputs.unparsable_target)
  = JS.Throw (Browser.SecurityError "pushState: the URL is invalid").
Proof. repeat split. Qed.



(** The hash target of the example, on the canvas widget in a
    same-origin frame. *)
Example hash_navigation_example :
  CanvasWidget.handleNavigate NavigationInputs.sample_engine
    Inputs.same_origin_window (JS.VString "#p=Budget") =
  JS.Ok [HistoryPushState
           (JS.VString "https://docs.example/o/docs/doc1/p/1?embed=true#p=Budget");
         DispatchPopState].
Proof. vm_compute. reflexivity. Qed.


(** C5 (as amended): in the grid widget, when the widget's frame has
    the origin of the top-level window, for every non-empty, non-hash
    target that parses to a URL of the top-level window's origin the
    handler pushes the target as a history entry (the entry's URL is
    the parsed target) and dispatches one popstate, without assigning
    the location.  The canvas widget has no such rule: it assigns every
    non-empty, non-hash target that parses as a URL to the top-level
    location. *)
Theorem same_origin_navigation (eng : Browser.Engine) (win : Browser.Window)
  (s : string) (u : Url.URL) :
  s <> EmptyString -> JS.startsWith "#" s = false ->
  (Browser.same_origin win = true ->
   Browser.resolve eng (Browser.top_location win) s = Some u ->
   Url.origin u = Url.origin (Browser.top_location win) ->
   GridWidget.handleNavigate eng win (JS.VString s)
     = JS.Ok [HistoryPushState (JS.VString s); DispatchPopState] /\
   Browser.pushState_url eng win s = JS.Ok u /\
   count is_push [HistoryPushState (JS.VString s); DispatchPopState] = 1%nat /\
   count is_popstate [HistoryPushState (JS.VString s); DispatchPopState] = 1%nat /\
   count is_location_assign
     [HistoryPushState (JS.VString s); DispatchPopState] = 0%nat) /\
  (Browser.resolve eng (Browser.self_location win) s = Some u ->
   CanvasWidget.handleNavigate eng win (JS.VString s)
     = JS.Ok [LocationAssignHref (JS.VString s)] /\
   Browser.href_assign_url eng win s = JS.Ok u).
Proof.
  intros Hne Hs. split.
  - intros Ho Hr Hu.
    pose proof (NavigationFacts.pushState_resolved eng win s u Hne Ho Hr) as Hp.
    rewrite Hu, String.eqb_refl in Hp.
    rewrite NavigationFacts.grid_target
      by (assumption || apply NavigationFacts.nonempty_truthy, Hne).
    cbn [Browser.ToString]. rewrite Hp. repeat split.
  - intros Hr. apply NavigationFacts.canvas_other_target; assumption.
Qed.

Lemma same_origin_navigation_witness :
  (GridWidget.handleNavigate NavigationInputs.sample_engine
     Inputs.same_origin_window (JS.VString Inputs.same_origin_target)
     = JS.Ok [HistoryPushState (JS.VString Inputs.same_origin_target);
              DispatchPopState] /\
   Browser.pushState_url NavigationInputs.sample_engine
     Inputs.same_origin_window Inputs.same_origin_target
     = JS.Ok NavigationInputs.same_origin_target_url) /\
  (CanvasWidget.handleNavigate NavigationInputs.sample_engine
     Inputs.same_origin_window (JS.VString Inputs.same_origin_target)
     = JS.Ok [LocationAssignHref (JS.VString Inputs.same_origin_target)] /\
   Browser.href_assign_url NavigationInputs.sample_engine
     Inputs.same_origin_window Inputs.same_origin_target
     = JS.Ok NavigationInputs.same_origin_target_url).
Proof.
  assert (Hne : Inputs.same_origin_target <> EmptyString) by discriminate.
  destruct (same_origin_navigation NavigationInputs.sample_engine
              Inputs.same_origin_window Inputs.same_origin_target
              NavigationInputs.same_origin_target_url Hne eq_refl) as [G C].
  split.
  - destruct (G eq_refl eq_refl eq_refl) as (E & Ep & _). split; assumption.
  - apply C; reflexivity.
Defined.

(** C5 as stated fails: a non-empty, non-hash target with the origin
    of the top-level window is assigned to the top-level location by
    the canvas widget, which pushes no history entry; and in a frame of
    another origin the grid widget's handler throws a SecurityError on
    its first access to the top-level location and pushes nothing. *)
Lemma same_origin_navigation_counterexample :
  Inputs.same_origin_target <> EmptyString /\
  JS.startsWith "#" Inputs.same_origin_target = false /\
  Url.origin_of Inputs.same_origin_target = Some (Url.origin Inputs.docs_url) /\
  Browser.resolve NavigationInputs.sample_engine Inputs.docs_url
    Inputs.same_origin_target = Some NavigationInputs.same_origin_target_url /\
  Url.origin NavigationInputs.same_origin_target_url = Url.origin Inputs.docs_url /\
  CanvasWidget.handleNavigate NavigationInputs.sample_engine
    Inputs.same_origin_window (JS.VString Inputs.same_origin_target)
    = JS.Ok [LocationAssignHref (JS.VString Inputs.same_origin_target)] /\
  count is_push [LocationAssignHref (JS.VString Inputs.same_origin_target)] = 0%nat /\
  count is_popstate
    [LocationAssignHref (JS.VString Inputs.same_origin_target)] = 0%nat /\
  GridWidget.handleNavigate NavigationInputs.sample_engine
    Inputs.cross_origin_window (JS.VString Inputs.same_origin_target)
    = JS.Throw (Browser.SecurityError
                  "Blocked a frame from accessing a cross-origin frame").
Proof. repeat split; vm_compute; discriminate. Qed.




(** ** The records handler *)

(** C7: in each widget, on an absent or empty batch the records handler
    leaves the dashboard showing the empty-configuration text, which
    differs from the text shown when the host API is missing, and no
    tile list; on a non-empty batch the held list is the image of the
    batch under the record mapper: same length, same order. *)
Theorem records_handler (r : SourceRecord) (rs : list SourceRecord) :
  (forall st st' : CanvasWidget.State,
     let empty_text :=
       "No configuration found. Please link to the SysDashboard_Config table."%string in
     let held := CanvasWidget.items (CanvasWidget.onRecords (Some (r :: rs)) st) in
     CanvasWidget.Dashboard (CanvasWidget.onRecords None st)
       = CanvasWidget.StatusMessage empty_text /\
     CanvasWidget.Dashboard (CanvasWidget.onRecords (Some []) st)
       = CanvasWidget.StatusMessage empty_text /\
     CanvasWidget.Dashboard (CanvasWidget.useEffect false st')
       = CanvasWidget.StatusMessage "Error: Grist API not found." /\
     empty_text <> "Error: Grist API not found."%string /\
     held = CanvasWidget.mappedData (r :: rs) /\
     held = map CanvasWidget.mapRecord (r :: rs) /\
     List.length held = List.length (r :: rs) /\
     (forall i, nth_error held i
                = option_map CanvasWidget.mapRecord (nth_error (r :: rs) i)) /\
     CanvasWidget.Dashboard (CanvasWidget.onRecords (Some (r :: rs)) st)
       = CanvasWidget.DashboardCanvas (map CanvasWidget.Element held)) /\
  (forall st st' : GridWidget.State,
     let empty_text := "Connected: 0 records found."%string in
     let held := GridWidget.items (GridWidget.onRecords (Some (r :: rs)) st) in
     GridWidget.Dashboard (GridWidget.onRecords None st)
       = GridWidget.StatusMessage empty_text /\
     GridWidget.Dashboard (GridWidget.onRecords (Some []) st)
       = GridWidget.StatusMessage empty_text /\
     GridWidget.Dashboard (GridWidget.useEffect GridWidget.NoGrist st')
       = GridWidget.StatusMessage "Error: Grist API global not found." /\
     empty_text <> "Error: Grist API global not found."%string /\
     held = GridWidget.mappedData (r :: rs) /\
     held = map GridWidget.mapRecord (r :: rs) /\
     List.length held = List.length (r :: rs) /\
     (forall i, nth_error held i
                = option_map GridWidget.mapRecord (nth_error (r :: rs) i)) /\
     exists children,
       GridWidget.Dashboard (GridWidget.onRecords (Some (r :: rs)) st)
         = GridWidget.GridCanvas children /\
       map GridWidget.tile children = held) /\
  (forall st st' : PlainWidget.State,
     let empty_text :=
       "No configuration found. Please link to the SysDashboard_Config table."%string in
     let held := PlainWidget.items (PlainWidget.onRecords (Some (r :: rs)) st) in
     PlainWidget.Dashboard (PlainWidget.onRecords None st)
       = PlainWidget.StatusMessage empty_text /\
     PlainWidget.Dashboard (PlainWidget.onRecords (Some []) st)
       = PlainWidget.StatusMessage empty_text /\
     PlainWidget.Dashboard (PlainWidget.useEffect false st')
       = PlainWidget.StatusMessage "Error: Grist API not found." /\
     empty_text <> "Error: Grist API not found."%string /\
     held = r :: rs /\
     PlainWidget.Dashboard (PlainWidget.onRecords (Some (r :: rs)) st)
       = PlainWidget.DashboardCanvas held).
Proof.
  split; [|split]; intros st st' empty_text held; subst empty_text held.
  - repeat split; try discriminate.
    + cbn [CanvasWidget.onRecords CanvasWidget.items CanvasWidget.setStatus
           CanvasWidget.setItems]. apply List.length_map.
    + intros i. cbn [CanvasWidget.onRecords CanvasWidget.items CanvasWidget.setStatus
                     CanvasWidget.setItems]. apply nth_error_map.
  - repeat split; try discriminate.
    + cbn [GridWidget.onRecords GridWidget.items GridWidget.setStatus
           GridWidget.setItems]. apply List.length_map.
    + intros i. cbn [GridWidget.onRecords GridWidget.items GridWidget.setStatus
                     GridWidget.setItems]. apply nth_error_map.
    + eexists. split; [reflexivity|].
      cbn [GridWidget.onRecords GridWidget.items GridWidget.setStatus
           GridWidget.setItems].
      rewrite map_map. cbn [GridWidget.tile]. apply map_id.
  - repeat split; discriminate.
Qed.

(** ** The crash boundary *)

(** Once React has reported a failure to the boundary through
    [getDerivedStateFromError] and [componentDidCatch], [render] gives
    the diagnostic view with the failure's description instead of the
    children; before any report it gives the children. *)
Lemma boundary_render {V : Type} (e : JS.Error) (info : ErrorBoundary.ErrorInfo)
  (st : ErrorBoundary.State) (children : V) :
  ErrorBoundary.render ErrorBoundary.initial children
    = ErrorBoundary.Children children /\
  ErrorBoundary.render_canvas ErrorBoundary.initial children
    = ErrorBoundary.Children children /\
  ErrorBoundary.render
    (ErrorBoundary.componentDidCatch e info
       (ErrorBoundary.getDerivedStateFromError e st)) children
    = ErrorBoundary.Diagnostic (Some (JS.Error_toString e))
        (Some (ErrorBoundary.componentStack info)) /\
  ErrorBoundary.render_canvas
    (ErrorBoundary.componentDidCatch e info
       (ErrorBoundary.getDerivedStateFromError e st)) children
    = ErrorBoundary.Diagnostic (Some (JS.Error_toString e)) None.
Proof. repeat split. Qed.

(** ** Clicks *)

(** A tile without a link does nothing when clicked, in both widgets
    and in every frame. *)
Lemma click_without_link (eng : Browser.Engine) (win : Browser.Window)
  (rec : SourceRecord) :
  JS.ToBoolean (JS.get "Link" rec) = false ->
  CanvasWidget.default_onClick eng win (CanvasWidget.mapRecord rec) = JS.Ok [] /\
  GridWidget.onClick eng win (GridWidget.mapRecord rec) = JS.Ok [].
Proof.
  intros H. unfold CanvasWidget.default_onClick, GridWidget.onClick.
  cbn [CanvasWidget.mapRecord CanvasWidget.link GridWidget.mapRecord GridWidget.linkUrl].
  unfold JS.or. rewrite H. split; reflexivity.
Qed.

(** ** Whole numbers and exact integer arithmetic *)

Module WholeNumberFacts.
Import JS NumberFacts NumberValue.

(** Scaling the mantissa by 2^52 and lowering the exponent by 52 does
    not change what [rne] keeps. *)
Lemma rne_scaled (N k : Z) :
  0 <= N -> 1 <= k -> rne (N * 2 ^ 52) (k + 52) = rne N k.
Proof.
  intros HN Hk. unfold rne.
  assert (Hq : N * 2 ^ 52 / 2 ^ (k + 52) = N / 2 ^ k).
  { rewrite Z.pow_add_r by lia. apply Z.div_mul_cancel_r; apply Z.pow_nonzero; lia. }
  assert (Hb : Z.testbit (N * 2 ^ 52) (k + 52 - 1) = Z.testbit N (k - 1)).
  { rewrite Z.mul_pow2_bits by lia. f_equal. lia. }
  assert (Hs : (N * 2 ^ 52 mod 2 ^ (k + 52 - 1) =? 0) = (N mod 2 ^ (k - 1) =? 0)).
  { replace (k + 52 - 1) with ((k - 1) + 52) by lia.
    rewrite Z.pow_add_r by lia.
    rewrite Z.mul_mod_distr_r by (apply Z.pow_nonzero; lia).
    assert (0 < 2 ^ 52) by (apply Z.pow_pos_nonneg; lia).
    destruct (Z.eqb_spec (N mod 2 ^ (k - 1)) 0) as [E|E].
    - rewrite E. reflexivity.
    - apply Z.eqb_neq. nia. }
  rewrite Hq, Hb, Hs. reflexivity.
Qed.

(** An integer written with 52 extra zero bits rounds to the same
    number as the integer itself. *)
Lemma binary_round_scaled (s : bool) (N : positive) :
  binary_round prec emax s (Z.to_pos (Zpos N * 2 ^ 52)) (-52) =
  binary_round prec emax s N 0.
Proof.
  pose proof (Pos2Z.is_pos (digits2_pos N)) as HdN.
  assert (Hd : Zpos (digits2_pos (Z.to_pos (Zpos N * 2 ^ 52))) = Zpos (digits2_pos N) + 52)
    by (apply digits2_shift; lia).
  rewrite !binary_round_normal by lia.
  rewrite Hd. set (d := Zpos (digits2_pos N)) in *.
  assert (HS : 0 < Zpos N * 2 ^ 52) by lia.
  rewrite Z2Pos.id by lia.
  destruct (Z.leb_spec d 53) as [Hle|Hgt].
  - destruct (Z.eq_dec d 1) as [E1|N1].
    + replace (d + 52 <=? 53) with true by (symmetry; apply Z.leb_le; lia).
      replace (d + 52 + -52 - 53) with (d + 0 - 53) by lia.
      replace (53 - (d + 52)) with 0 by lia.
      rewrite Z.pow_0_r, Z.mul_1_r.
      replace (53 - d) with 52 by lia. reflexivity.
    + replace (d + 52 <=? 53) with false by (symmetry; apply Z.leb_gt; lia).
      replace (d + 52 + -52 - 53) with (d + 0 - 53) by lia.
      replace (d + 52 - 53) with (d - 1) by lia.
      assert (Hbit : Z.testbit (Zpos N * 2 ^ 52) (d - 1 - 1) = false)
        by (apply Z.mul_pow2_bits_low; lia).
      rewrite rne_no_round_bit by assumption.
      assert (Hq : Zpos N * 2 ^ 52 / 2 ^ (d - 1) = Zpos N * 2 ^ (53 - d)).
      { replace (2 ^ 52) with (2 ^ (53 - d) * 2 ^ (d - 1))
          by (rewrite <- Z.pow_add_r by lia; f_equal; lia).
        rewrite Z.mul_assoc. apply Z.div_mul. apply Z.pow_nonzero; lia. }
      rewrite Hq.
      pose proof (digits2_bounds N) as [Blo Bhi]. fold d in Blo, Bhi.
      assert (Hlt : Zpos N * 2 ^ (53 - d) < 2 ^ 53).
      { replace (2 ^ 53) with (2 ^ d * 2 ^ (53 - d))
          by (rewrite <- Z.pow_add_r by lia; f_equal; lia).
        assert (0 < 2 ^ (53 - d)) by (apply Z.pow_pos_nonneg; lia). nia. }
      replace (Zpos N * 2 ^ (53 - d) =? 2 ^ 53) with false
        by (symmetry; apply Z.eqb_neq; lia).
      reflexivity.
  - replace (d + 52 <=? 53) with false by (symmetry; apply Z.leb_gt; lia).
    replace (d + 52 + -52 - 53) with (d + 0 - 53) by lia.
    replace (d + 52 - 53) with ((d - 53) + 52) by lia.
    rewrite rne_scaled by lia. reflexivity.
Qed.

(** What rounding an integer gives: never NaN, never zero, and a whole
    number with exponent at least -52 when finite. *)
Lemma binary_round_int_shape (s : bool) (p : positive) :
  match binary_round prec emax s p 0 with
  | S754_finite s' M E => s' = s /\ -52 <= E /\ is_integer (S754_finite s' M E) = true
  | S754_infinity s' => s' = s
  | _ => False
  end.
Proof.
  pose proof (Pos2Z.is_pos (digits2_pos p)) as Hd.
  rewrite binary_round_normal by lia.
  set (d := Zpos (digits2_pos p)) in *.
  destruct (Z.leb_spec d 53) as [Hle|Hgt].
  - destruct (d + 0 - 53 <=? 971); [|reflexivity].
    split; [reflexivity|]. split; [lia|].
    cbn [is_integer].
    assert (Hp : 0 < 2 ^ (53 - d)) by (apply Z.pow_pos_nonneg; lia).
    rewrite Z2Pos.id by lia.
    replace (- (d + 0 - 53)) with (53 - d) by lia.
    rewrite Z.mod_mul by lia. rewrite Z.eqb_refl. apply orb_true_r.
  - destruct (_ =? 2 ^ 53).
    + destruct (d + 0 - 53 + 1 <=? 971); [|reflexivity].
      split; [reflexivity|]. split; [lia|].
      cbn [is_integer]. replace (0 <=? d + 0 - 53 + 1) with true
        by (symmetry; apply Z.leb_le; lia). reflexivity.
    + destruct (d + 0 - 53 <=? 971); [|reflexivity].
      split; [reflexivity|]. split; [lia|].
      cbn [is_integer]. replace (0 <=? d + 0 - 53) with true
        by (symmetry; apply Z.leb_le; lia). reflexivity.
Qed.

Lemma of_Z_shape (k : Z) :
  match of_Z k with
  | S754_zero s => k = 0 /\ s = false
  | S754_finite s M E =>
      k <> 0 /\ s = (k <? 0) /\ -52 <= E /\ is_integer (S754_finite s M E) = true
  | S754_infinity s => k <> 0 /\ s = (k <? 0)
  | S754_nan => False
  end.
Proof.
  unfold of_Z. destruct k as [|p|p]; cbn [binary_normalize].
  - split; reflexivity.
  - pose proof (binary_round_int_shape false p) as H.
    destruct (binary_round prec emax false p 0); try contradiction.
    + subst. split; [lia|reflexivity].
    + destruct H as (-> & H1 & H2). repeat split; try assumption; lia.
  - pose proof (binary_round_int_shape true p) as H.
    destruct (binary_round prec emax true p 0); try contradiction.
    + subst. split; [lia|reflexivity].
    + destruct H as (-> & H1 & H2). repeat split; try assumption; lia.
Qed.

(** A finite result of [Math.round] is a whole number with exponent at
    least -52. *)
Lemma Math_round_whole (n : number) :
  match Math_round n with
  | S754_finite s M E => -52 <= E /\ is_integer (S754_finite s M E) = true
  | _ => True
  end.
Proof.
  destruct n as [s|s| |s m e]; cbn [Math_round]; try exact I.
  destruct (Z.leb_spec 0 e) as [He|He].
  - replace (0 <=? e) with true by (symmetry; apply Z.leb_le; lia).
    split; [lia|].
    cbn [is_integer]. replace (0 <=? e) with true by (symmetry; apply Z.leb_le; lia).
    reflexivity.
  - replace (0 <=? e) with false by (symmetry; apply Z.leb_gt; lia).
    cbv zeta. destruct (_ =? 0); [exact I|].
    change (binary_normalize prec emax ?z 0 false) with (of_Z z).
    pose proof (of_Z_shape ((2 * cond_Zopp s (Zpos m) + 2 ^ (- e)) / 2 ^ (- e + 1))) as H.
    destruct (of_Z _); try exact I. split; apply H.
Qed.

Lemma shl_one (e : Z) :
  e <= -52 ->
  Zpos (fst (shl_align 4503599627370496 (-52) e)) = 2 ^ 52 * 2 ^ (-52 - e).
Proof. intros H. rewrite shl_align_fst by lia. reflexivity. Qed.

(** [x + 1] for a finite [x]: the exact sum at the smaller exponent,
    then one rounding. *)
Lemma add_one_exact (s : bool) (m : positive) (e : Z) :
  add (S754_finite s m e) one =
  binary_normalize prec emax
    (cond_Zopp s (Zpos m * 2 ^ (e - Z.min e (-52))) + 2 ^ 52 * 2 ^ (-52 - Z.min e (-52)))
    (Z.min e (-52)) false.
Proof.
  change one with (S754_finite false 4503599627370496 (-52)).
  unfold add. cbn [SFadd]. cbn [cond_Zopp].
  rewrite (shl_align_fst m e) by lia.
  rewrite (shl_align_fst 4503599627370496 (-52)) by lia.
  reflexivity.
Qed.

(** The magnitude of a whole number, scaled by 2^52. *)
Lemma integer_scaled (m : positive) (e : Z) :
  -52 <= e -> is_integer (S754_finite false m e) = true ->
  Zpos m * 2 ^ (e + 52) = integer_value (S754_finite false m e) * 2 ^ 52 /\
  0 < integer_value (S754_finite false m e).
Proof.
  intros He Hint. cbn [integer_value is_integer cond_Zopp] in *.
  destruct (Z.leb_spec 0 e) as [H0|H0].
  - rewrite Z.pow_add_r by lia.
    assert (0 < 2 ^ e) by (apply Z.pow_pos_nonneg; lia). split; lia.
  - cbn [orb] in Hint. apply Z.eqb_eq in Hint.
    set (Q := 2 ^ (- e)) in *.
    assert (HQ : 0 < Q) by (apply Z.pow_pos_nonneg; lia).
    pose proof (Z.div_mod (Zpos m) Q ltac:(lia)) as D. rewrite Hint in D.
    assert (E52 : 2 ^ 52 = Q * 2 ^ (e + 52))
      by (unfold Q; rewrite <- Z.pow_add_r by lia; f_equal; lia).
    split; [rewrite E52; nia | nia].
Qed.

Lemma binary_normalize_scaled (T : Z) :
  binary_normalize prec emax (T * 2 ^ 52) (-52) false = of_Z T.
Proof.
  unfold of_Z. destruct T as [|p|p].
  - reflexivity.
  - replace (Zpos p * 2 ^ 52) with (Zpos (Z.to_pos (Zpos p * 2 ^ 52)))
      by (apply Z2Pos.id; lia).
    cbn [binary_normalize]. apply binary_round_scaled.
  - replace (Zneg p * 2 ^ 52) with (Zneg (Z.to_pos (Zpos p * 2 ^ 52)))
      by (rewrite <- Pos2Z.opp_pos, Z2Pos.id by lia; lia).
    cbn [binary_normalize]. apply binary_round_scaled.
Qed.

(** Adding 1 to a whole number is the integer sum, rounded once. *)
Lemma add_one_integer (s : bool) (m : positive) (e : Z) :
  -52 <= e -> is_integer (S754_finite s m e) = true ->
  add (S754_finite s m e) one = of_Z (integer_value (S754_finite s m e) + 1).
Proof.
  intros He Hint.
  destruct (integer_scaled m e He Hint) as [Hsc _].
  rewrite add_one_exact. rewrite Z.min_r by lia.
  replace (e - -52) with (e + 52) by lia.
  replace (-52 - -52) with 0 by lia. rewrite Z.pow_0_r, Z.mul_1_r.
  rewrite Hsc.
  assert (Hs : integer_value (S754_finite s m e)
               = cond_Zopp s (integer_value (S754_finite false m e)))
    by reflexivity.
  rewrite Hs. set (v := integer_value (S754_finite false m e)).
  replace (cond_Zopp s (v * 2 ^ 52) + 2 ^ 52) with ((cond_Zopp s v + 1) * 2 ^ 52)
    by (destruct s; cbn [cond_Zopp]; ring).
  apply binary_normalize_scaled.
Qed.

(** Integers below 2^53 in magnitude are represented exactly. *)
Lemma of_Z_exact (k : Z) :
  Z.abs k < 2 ^ 53 -> k <> 0 ->
  exists m e, of_Z k = S754_finite (k <? 0) m e /\ -52 <= e <= 0 /\
    is_integer (S754_finite (k <? 0) m e) = true /\
    integer_value (S754_finite (k <? 0) m e) = k.
Proof.
  intros Hk Hnz.
  assert (G : forall (s : bool) (p : positive), Zpos p < 2 ^ 53 ->
    exists m e, binary_round prec emax s p 0 = S754_finite s m e /\ -52 <= e <= 0 /\
      is_integer (S754_finite s m e) = true /\
      integer_value (S754_finite s m e) = cond_Zopp s (Zpos p)).
  { intros s p Hp.
    pose proof (digits2_bounds p) as [Blo Bhi].
    set (d := Zpos (digits2_pos p)) in *.
    assert (Hd : 1 <= d <= 53).
    { split; [unfold d; lia|].
      destruct (Z_le_gt_dec d 53) as [|Hgt]; [assumption|exfalso].
      assert (2 ^ 53 <= 2 ^ (d - 1)) by (apply Z.pow_le_mono_r; lia). lia. }
    rewrite binary_round_normal by (fold d; lia). fold d.
    replace (d <=? 53) with true by (symmetry; apply Z.leb_le; lia).
    replace (d + 0 - 53 <=? 971) with true by (symmetry; apply Z.leb_le; lia).
    assert (HP : 0 < 2 ^ (53 - d)) by (apply Z.pow_pos_nonneg; lia).
    eexists _, _. split; [reflexivity|]. split; [lia|].
    cbn [is_integer integer_value]. rewrite Z2Pos.id by lia.
    replace (- (d + 0 - 53)) with (53 - d) by lia.
    rewrite Z.mod_mul by lia. rewrite Z.eqb_refl, orb_true_r. split; [reflexivity|].
    f_equal. destruct (Z.leb_spec 0 (d + 0 - 53)).
    - replace (53 - d) with 0 by lia. replace (d + 0 - 53) with 0 by lia.
      rewrite Z.pow_0_r. lia.
    - apply Z.div_mul. lia. }
  unfold of_Z. destruct k as [|p|p]; [congruence| |]; cbn [binary_normalize Z.ltb Z.compare].
  - apply (G false p). lia.
  - apply (G true p). lia.
Qed.

(** [Math.round] leaves a whole number as it is. *)
Lemma Math_round_integer (s : bool) (m : positive) (e : Z) :
  is_integer (S754_finite s m e) = true ->
  Math_round (S754_finite s m e) =
  if 0 <=? e then S754_finite s m e
  else of_Z (integer_value (S754_finite s m e)).
Proof.
  intros Hint. unfold Math_round.
  destruct (Z.leb_spec 0 e) as [H0|H0]; [reflexivity|]. cbv zeta.
  cbn [is_integer] in Hint.
  replace (0 <=? e) with false in Hint by (symmetry; apply Z.leb_gt; lia).
  cbn [orb] in Hint. apply Z.eqb_eq in Hint.
  set (Q := 2 ^ (- e)) in *.
  assert (HQ : 0 < Q) by (apply Z.pow_pos_nonneg; lia).
  replace (2 ^ (- e + 1)) with (2 * Q)
    by (unfold Q; rewrite Z.pow_add_r by lia; lia).
  pose proof (Z.div_mod (Zpos m) Q ltac:(lia)) as D. rewrite Hint in D.
  set (v := Zpos m / Q) in *.
  assert (Hv : 0 < v) by nia.
  assert (Hn : (2 * cond_Zopp s (Zpos m) + Q) / (2 * Q) = cond_Zopp s v).
  { replace (2 * cond_Zopp s (Zpos m) + Q) with (cond_Zopp s v * (2 * Q) + Q)
      by (rewrite D; destruct s; cbn [cond_Zopp]; ring).
    rewrite Z.div_add_l by lia. rewrite Z.div_small by lia. lia. }
  rewrite Hn.
  replace (cond_Zopp s v =? 0) with false
    by (symmetry; apply Z.eqb_neq; destruct s; cbn [cond_Zopp]; lia).
  cbn [integer_value].
  replace (0 <=? e) with false by (symmetry; apply Z.leb_gt; lia).
  reflexivity.
Qed.
End WholeNumberFacts.

Module MapperWholeFacts.
Import JS NumberFacts NumberValue WholeNumberFacts.

Lemma of_Z_whole (k : Z) : whole_or_infinite (of_Z k) = true.
Proof.
  pose proof (of_Z_shape k) as H.
  destruct (of_Z k); try contradiction; try reflexivity. apply H.
Qed.

(** [(Math.round(n) || 0) + 1] is a whole number or an infinity. *)
Lemma coordinate_whole (n : number) :
  whole_or_infinite (add (number_or (Math_round n) (of_Z 0)) (of_Z 1)) = true.
Proof.
  pose proof (Math_round_whole n) as H.
  destruct (Math_round n) as [s|s| |s M E]; try reflexivity.
  destruct H as [HE Hint]. cbn [number_or number_truthy]. fold one.
  rewrite add_one_integer by assumption. apply of_Z_whole.
Qed.

(** [Math.round(n) || d] is truthy and whole when [d] is. *)
Lemma span_whole (n d : number) :
  number_truthy d = true -> whole_or_infinite d = true ->
  number_truthy (number_or (Math_round n) d) = true /\
  whole_or_infinite (number_or (Math_round n) d) = true.
Proof.
  intros Hd Hw. pose proof (Math_round_whole n) as H.
  unfold number_or.
  destruct (Math_round n) as [s|s| |s M E]; cbn [number_truthy];
    try (split; assumption); split; try reflexivity.
  apply H.
Qed.

(** [Math.round(n) || d] is at least 1 when [n] is NaN or at least
    -0.5 and [d] is at least 1. *)
Lemma span_one_based (n d : number) :
  one_based d -> valid n = true ->
  n = S754_nan \/ (is_finite n = true /\ le neg_half n = true) ->
  one_based (number_or (Math_round n) d).
Proof.
  intros Hd Hv Hn.
  destruct n as [s|s| |s m e]; try exact Hd.
  - destruct Hn as [Hn|[Hn _]]; discriminate.
  - destruct Hn as [Hn|[_ Hle]]; [discriminate|].
    destruct s.
    + rewrite Math_round_neg_half by assumption. exact Hd.
    + destruct (Z_lt_le_dec e 0) as [Hneg|Hpos].
      * destruct (Math_round_pos_frac m e Hv Hneg)
          as [->|(M & E & -> & HE & Hint & Hlt)]; [exact Hd|].
        cbn [number_or number_truthy].
        destruct (Z.eq_dec E (-52)) as [->|NE];
          [|apply one_based_finite; [lia|right; assumption]].
        split.
        -- cbn [is_integer]. rewrite Hint. reflexivity.
        -- change (- -52) with 52 in Hint.
           assert (HM : 2 ^ 52 <= Zpos M).
           { pose proof (Z.div_mod (Zpos M) (2 ^ 52) ltac:(lia)) as D.
             rewrite Hint in D. pose proof (Pos2Z.is_pos M). lia. }
           change one with (S754_finite false 4503599627370496 (-52)).
           unfold le, SFleb. cbn [SFcompare Z.compare Pos.compare Pos.compare_cont].
           rewrite Pos.compare_cont_spec. cbn [Pos.switch_Eq].
           change (2 ^ 52) with (Zpos 4503599627370496) in HM.
           destruct (Pos.compare_spec 4503599627370496 M) as [C|C|C];
             try reflexivity.
           apply Pos2Z.pos_lt_pos in C. exfalso. apply (Z.lt_irrefl (Zpos M)).
           eapply Z.lt_le_trans; eassumption.
      * unfold Math_round.
        replace (0 <=? e) with true by (symmetry; apply Z.leb_le; lia).
        cbn [number_or number_truthy]. apply one_based_finite; lia.
Qed.

(** The mapper's expressions on an integer below 2^53 in magnitude. *)
Lemma coordinate_of_Z (k : Z) :
  Z.abs k < 2 ^ 53 ->
  add (number_or (Math_round (of_Z k)) (of_Z 0)) (of_Z 1) = of_Z (k + 1).
Proof.
  intros Hk. destruct (Z.eq_dec k 0) as [->|Hnz]; [reflexivity|].
  destruct (of_Z_exact k Hk Hnz) as (m & e & -> & He & Hint & Hval).
  rewrite Math_round_integer by assumption.
  destruct (Z.leb_spec 0 e) as [H0|H0].
  - cbn [number_or number_truthy]. fold one.
    rewrite add_one_integer by (assumption || lia). rewrite Hval. reflexivity.
  - rewrite Hval.
    destruct (of_Z_exact k Hk Hnz) as (m' & e' & -> & He' & Hint' & Hval').
    cbn [number_or number_truthy]. fold one.
    rewrite add_one_integer by (assumption || lia). rewrite Hval'. reflexivity.
Qed.

Lemma span_of_Z (k : Z) (d : number) :
  Z.abs k < 2 ^ 53 ->
  number_or (Math_round (of_Z k)) d = if k =? 0 then d else of_Z k.
Proof.
  intros Hk. destruct (Z.eqb_spec k 0) as [->|Hnz]; [reflexivity|].
  destruct (of_Z_exact k Hk Hnz) as (m & e & E & He & Hint & Hval).
  rewrite E at 1. rewrite Math_round_integer by assumption.
  destruct (Z.leb_spec 0 e) as [H0|H0].
  - rewrite E. reflexivity.
  - rewrite Hval, E. reflexivity.
Qed.

End MapperWholeFacts.

(** ** More on the record mapper *)

(** For every source record, in both widgets, the four mapped numbers
    are whole numbers or infinities (never NaN, never fractional), and
    the spans [w] and [h] are never zero. *)
Theorem mapped_numbers_whole (rec : SourceRecord) :
  (NumberValue.whole_or_infinite (CanvasWidget.x (CanvasWidget.mapRecord rec)) = true /\
   NumberValue.whole_or_infinite (CanvasWidget.y (CanvasWidget.mapRecord rec)) = true /\
   NumberValue.whole_or_infinite (CanvasWidget.w (CanvasWidget.mapRecord rec)) = true /\
   NumberValue.whole_or_infinite (CanvasWidget.h (CanvasWidget.mapRecord rec)) = true /\
   JS.number_truthy (CanvasWidget.w (CanvasWidget.mapRecord rec)) = true /\
   JS.number_truthy (CanvasWidget.h (CanvasWidget.mapRecord rec)) = true) /\
  (NumberValue.whole_or_infinite (GridWidget.x (GridWidget.mapRecord rec)) = true /\
   NumberValue.whole_or_infinite (GridWidget.y (GridWidget.mapRecord rec)) = true /\
   NumberValue.whole_or_infinite (GridWidget.w (GridWidget.mapRecord rec)) = true /\
   NumberValue.whole_or_infinite (GridWidget.h (GridWidget.mapRecord rec)) = true /\
   JS.number_truthy (GridWidget.w (GridWidget.mapRecord rec)) = true /\
   JS.number_truthy (GridWidget.h (GridWidget.mapRecord rec)) = true).
Proof.
  pose proof (MapperWholeFacts.coordinate_whole (JS.Number (JS.get "X" rec))) as HX.
  pose proof (MapperWholeFacts.coordinate_whole (JS.Number (JS.get "Y" rec))) as HY.
  destruct (MapperWholeFacts.span_whole (JS.Number (JS.get "W" rec)) (JS.of_Z 2)
              eq_refl eq_refl) as [TW WW].
  destruct (MapperWholeFacts.span_whole (JS.Number (JS.get "H" rec)) (JS.of_Z 1)
              eq_refl eq_refl) as [TH WH].
  split; repeat split; assumption.
Qed.

(** For every source record whose [W] and [H] convert to NaN (missing
    or not numeric) or to a finite number that is at least -0.5, the
    mapped spans [w] and [h] are integers that are at least 1. *)
Theorem spans_one_based (rec : SourceRecord) :
  let W := JS.Number (JS.get "W" rec) in
  let H := JS.Number (JS.get "H" rec) in
  JS.valid W = true ->
  W = JS.NaN \/ (JS.is_finite W = true /\ JS.le JS.neg_half W = true) ->
  JS.valid H = true ->
  H = JS.NaN \/ (JS.is_finite H = true /\ JS.le JS.neg_half H = true) ->
  JS.one_based (CanvasWidget.w (CanvasWidget.mapRecord rec)) /\
  JS.one_based (CanvasWidget.h (CanvasWidget.mapRecord rec)) /\
  JS.one_based (GridWidget.w (GridWidget.mapRecord rec)) /\
  JS.one_based (GridWidget.h (GridWidget.mapRecord rec)).
Proof.
  intros W H VW HW VH HH.
  assert (D2 : JS.one_based (JS.of_Z 2)) by (split; reflexivity).
  assert (D1 : JS.one_based (JS.of_Z 1)) by (split; reflexivity).
  pose proof (MapperWholeFacts.span_one_based W (JS.of_Z 2) D2 VW HW) as PW.
  pose proof (MapperWholeFacts.span_one_based H (JS.of_Z 1) D1 VH HH) as PH.
  exact (conj PW (conj PH (conj PW PH))).
Qed.

Lemma spans_one_based_witness :
  JS.one_based (CanvasWidget.w (CanvasWidget.mapRecord MoreInputs.fractional_record)) /\
  JS.one_based (CanvasWidget.h (CanvasWidget.mapRecord MoreInputs.fractional_record)) /\
  JS.one_based (GridWidget.w (GridWidget.mapRecord MoreInputs.fractional_record)) /\
  JS.one_based (GridWidget.h (GridWidget.mapRecord MoreInputs.fractional_record)).
Proof.
  apply (spans_one_based MoreInputs.fractional_record).
  - vm_compute; reflexivity.
  - right. split; vm_compute; reflexivity.
  - vm_compute; reflexivity.
  - right. split; vm_compute; reflexivity.
Defined.

(** For every source record whose fields convert to integers below 2^53
    in magnitude, the mapping is exact integer arithmetic: [x] and [y]
    are the integer plus one, [w] and [h] are the integer itself, or the
    default when it is 0. *)
Theorem integer_fields_exact (rec : SourceRecord) (kx ky kw kh : Z) :
  Z.abs kx < 2 ^ 53 -> Z.abs ky < 2 ^ 53 ->
  Z.abs kw < 2 ^ 53 -> Z.abs kh < 2 ^ 53 ->
  JS.Number (JS.get "X" rec) = JS.of_Z kx ->
  JS.Number (JS.get "Y" rec) = JS.of_Z ky ->
  JS.Number (JS.get "W" rec) = JS.of_Z kw ->
  JS.Number (JS.get "H" rec) = JS.of_Z kh ->
  (CanvasWidget.x (CanvasWidget.mapRecord rec) = JS.of_Z (kx + 1) /\
   CanvasWidget.y (CanvasWidget.mapRecord rec) = JS.of_Z (ky + 1) /\
   CanvasWidget.w (CanvasWidget.mapRecord rec) = JS.of_Z (if kw =? 0 then 2 else kw) /\
   CanvasWidget.h (CanvasWidget.mapRecord rec) = JS.of_Z (if kh =? 0 then 1 else kh)) /\
  (GridWidget.x (GridWidget.mapRecord rec) = JS.of_Z (kx + 1) /\
   GridWidget.y (GridWidget.mapRecord rec) = JS.of_Z (ky + 1) /\
   GridWidget.w (GridWidget.mapRecord rec) = JS.of_Z (if kw =? 0 then 2 else kw) /\
   GridWidget.h (GridWidget.mapRecord rec) = JS.of_Z (if kh =? 0 then 1 else kh)).
Proof.
  intros Bx By Bw Bh EX EY EW EH.
  unfold CanvasWidget.mapRecord, GridWidget.mapRecord.
  cbn [CanvasWidget.x CanvasWidget.y CanvasWidget.w CanvasWidget.h
       GridWidget.x GridWidget.y GridWidget.w GridWidget.h].
  rewrite EX, EY, EW, EH.
  rewrite !MapperWholeFacts.coordinate_of_Z by assumption.
  rewrite !MapperWholeFacts.span_of_Z by assumption.
  destruct (kw =? 0), (kh =? 0); repeat split.
Qed.

Lemma integer_fields_exact_witness :
  (CanvasWidget.x (CanvasWidget.mapRecord MoreInputs.integer_record) = JS.of_Z 4 /\
   CanvasWidget.y (CanvasWidget.mapRecord MoreInputs.integer_record) = JS.of_Z (-6) /\
   CanvasWidget.w (CanvasWidget.mapRecord MoreInputs.integer_record) = JS.of_Z 12 /\
   CanvasWidget.h (CanvasWidget.mapRecord MoreInputs.integer_record) = JS.of_Z 1) /\
  (GridWidget.x (GridWidget.mapRecord MoreInputs.integer_record) = JS.of_Z 4 /\
   GridWidget.y (GridWidget.mapRecord MoreInputs.integer_record) = JS.of_Z (-6) /\
   GridWidget.w (GridWidget.mapRecord MoreInputs.integer_record) = JS.of_Z 12 /\
   GridWidget.h (GridWidget.mapRecord MoreInputs.integer_record) = JS.of_Z 1).
Proof.
  apply (integer_fields_exact MoreInputs.integer_record 3 (-7) 12 0);
    vm_compute; reflexivity.
Defined.

(** ** More on navigation *)

Module ClickFacts.
Import JS Encoding.

Lemma parse_fragment_safe (s : string) :
  Forall fragment_safe (list_ascii_of_string s) -> Url.parse_fragment s = s.
Proof.
  intros H. unfold Url.parse_fragment.
  rewrite <- (string_of_list_ascii_of_string s) at 2. f_equal.
  induction H as [|c l [Ht He] _ IH]; [reflexivity|].
  cbn [filter]. rewrite Ht. cbn [negb flat_map]. rewrite He, IH. reflexivity.
Qed.

Lemma encodeURIComponent_chars (s : string) :
  CanvasWidget.encodeURIComponent s
  = string_of_list_ascii (flat_map encode_char (list_ascii_of_string s)).
Proof. reflexivity. Qed.

Lemma encode_char_safe (c : ascii) : Forall fragment_safe (encode_char c).
Proof.
  destruct c as [[] [] [] [] [] [] [] []];
    repeat (constructor; [split; reflexivity|]); constructor.
Qed.

Lemma encoded_safe (l : list ascii) : Forall fragment_safe (flat_map encode_char l).
Proof.
  induction l as [|c l IH]; cbn [flat_map]; [constructor|].
  apply Forall_app. split; [apply encode_char_safe | exact IH].
Qed.

Lemma hex_digit_inj (a b : N) :
  (a < 16)%N -> (b < 16)%N -> Url.hex_digit a = Url.hex_digit b -> a = b.
Proof.
  intros Ha Hb H. unfold Url.hex_digit in H.
  apply (f_equal N_of_ascii) in H.
  assert (Ba : ((if a <? 10 then 48 + a else 55 + a) < 256)%N)
    by (destruct (a <? 10)%N; lia).
  assert (Bb : ((if b <? 10 then 48 + b else 55 + b) < 256)%N)
    by (destruct (b <? 10)%N; lia).
  rewrite !N_ascii_embedding in H by assumption.
  destruct (N.ltb_spec a 10), (N.ltb_spec b 10); lia.
Qed.

Lemma encode_char_inj (a b : ascii) (r1 r2 : list ascii) :
  encode_char a ++ r1 = encode_char b ++ r2 -> a = b /\ r1 = r2.
Proof.
  unfold encode_char.
  destruct (CanvasWidget.is_unreserved a) eqn:Ua;
    destruct (CanvasWidget.is_unreserved b) eqn:Ub; cbn [app]; intros H.
  - injection H as -> ->. split; reflexivity.
  - injection H as -> _. discriminate Ua.
  - injection H as <- _. discriminate Ub.
  - injection H as H1 H2 ->. split; [|reflexivity].
    pose proof (N_ascii_bounded a) as Ba. pose proof (N_ascii_bounded b) as Bb.
    apply hex_digit_inj in H1;
      [|apply N.Div0.div_lt_upper_bound; lia|apply N.Div0.div_lt_upper_bound; lia].
    apply hex_digit_inj in H2; [|apply N.mod_lt; lia|apply N.mod_lt; lia].
    rewrite <- (ascii_N_embedding a), <- (ascii_N_embedding b). f_equal.
    rewrite (N.div_mod (N_of_ascii a) 16), (N.div_mod (N_of_ascii b) 16) by lia.
    rewrite H1, H2. reflexivity.
Qed.

Lemma encode_char_nonempty (c : ascii) : encode_char c <> [].
Proof. unfold encode_char. destruct (CanvasWidget.is_unreserved c); discriminate. Qed.

Lemma encoded_inj (l1 l2 : list ascii) :
  flat_map encode_char l1 = flat_map encode_char l2 -> l1 = l2.
Proof.
  revert l2. induction l1 as [|a l1 IH]; intros [|b l2]; cbn [flat_map]; intros H.
  - reflexivity.
  - symmetry in H. apply app_eq_nil in H as [H _].
    now apply encode_char_nonempty in H.
  - apply app_eq_nil in H as [H _]. now apply encode_char_nonempty in H.
  - apply encode_char_inj in H as [-> H]. f_equal. now apply IH.
Qed.

Lemma encodeURIComponent_inj (s1 s2 : string) :
  CanvasWidget.encodeURIComponent s1 = CanvasWidget.encodeURIComponent s2 -> s1 = s2.
Proof.
  rewrite !encodeURIComponent_chars. intros H.
  apply (f_equal list_ascii_of_string) in H.
  rewrite !list_ascii_of_string_of_list_ascii in H.
  apply encoded_inj in H.
  apply (f_equal string_of_list_ascii) in H.
  now rewrite !string_of_list_ascii_of_string in H.
Qed.

Lemma append_inj_r (p a b : string) : (p ++ a = p ++ b)%string -> a = b.
Proof.
  induction p as [|c p IH]; cbn; intros H; [exact H|].
  injection H as H. now apply IH.
Qed.

(** The ways the canvas handler throws. *)
Lemma canvas_not_a_string (eng : Browser.Engine) (win : Browser.Window) (url : value) :
  ToBoolean url = true -> (forall s, url <> VString s) ->
  CanvasWidget.handleNavigate eng win url
  = Throw (TypeError "url.startsWith is not a function").
Proof.
  intros T H. unfold CanvasWidget.handleNavigate. rewrite T. cbn [negb].
  destruct url as [| |b|n|s|l|props]; try reflexivity. now contradiction (H s).
Qed.

Lemma canvas_unparsable (eng : Browser.Engine) (win : Browser.Window) (s : string) :
  s <> EmptyString -> startsWith "#" s = false ->
  Browser.resolve eng (Browser.self_location win) s = None ->
  CanvasWidget.handleNavigate eng win (VString s)
  = Throw (Browser.SyntaxError "href: the URL is invalid").
Proof.
  intros Hne Hs Hr. unfold CanvasWidget.handleNavigate, Browser.href_assign_url.
  rewrite NavigationFacts.nonempty_truthy by assumption. cbn [negb].
  rewrite Hs, Hr. reflexivity.
Qed.

Lemma set_hash_plain (top : Url.URL) (v : string) :
  v <> EmptyString -> startsWith "#" v = false ->
  Url.set_hash top v =
  {| Url.origin := Url.origin top; Url.pathname := Url.pathname top;
     Url.query := Url.query top; Url.fragment := Some (Url.parse_fragment v) |}.
Proof.
  intros Hne Hs. unfold Url.set_hash.
  destruct (String.eqb_spec v EmptyString); [contradiction|].
  rewrite Hs. reflexivity.
Qed.

(** The click handler of a menu entry that was rendered reads the name
    the entry shows. *)
Lemma menu_click_reads_entry (eng : Browser.Engine) (win : Browser.Window)
  (page : value) (en : CanvasWidget.MenuEntry) :
  CanvasWidget.menu_entry page = Ok en ->
  CanvasWidget.menu_onClick eng win page =
  CanvasWidget.handleNavigate eng win
    (VString ("#p=" ++ CanvasWidget.encodeURIComponent
                         (Browser.ToString eng (CanvasWidget.page_name en)))).
Proof.
  unfold CanvasWidget.menu_entry, CanvasWidget.menu_onClick.
  destruct (CanvasWidget.prop "id" page); [|discriminate].
  destruct (CanvasWidget.prop "fields" page) as [fields|]; [|discriminate].
  destruct (CanvasWidget.prop "page_name" fields) as [n|]; [|discriminate].
  intros H. injection H as <-. reflexivity.
Qed.

(** The URL the canvas handler pushes for the target [#p=] followed by
    an encoded name, in a same-origin frame. *)
Lemma menu_target_href (eng : Browser.Engine) (win : Browser.Window) (name : string) :
  Browser.same_origin win = true ->
  CanvasWidget.handleNavigate eng win
    (VString ("#p=" ++ CanvasWidget.encodeURIComponent name)) =
  Ok [HistoryPushState
        (VString
           (Url.origin (Browser.top_location win)
            ++ Url.pathname (Browser.top_location win)
            ++ match Url.query (Browser.top_location win) with
               | Some q => "?" ++ q
               | None => EmptyString
               end
            ++ "#p=" ++ CanvasWidget.encodeURIComponent name));
      DispatchPopState].
Proof.
  intros Ho.
  rewrite NavigationFacts.canvas_hash_target by (reflexivity || assumption).
  cbn [append]. rewrite NavigationFacts.substring_from_1.
  rewrite set_hash_plain by (discriminate || reflexivity).
  unfold Url.href. cbn [Url.origin Url.pathname Url.query Url.fragment].
  rewrite parse_fragment_safe; [reflexivity|].
  cbn [list_ascii_of_string].
  constructor; [split; reflexivity|]. constructor; [split; reflexivity|].
  rewrite encodeURIComponent_chars, list_ascii_of_string_of_list_ascii.
  apply encoded_safe.
Qed.

(** The URL a click on a rendered menu entry pushes. *)
Lemma menu_click_href (eng : Browser.Engine) (win : Browser.Window)
  (page : value) (en : CanvasWidget.MenuEntry) :
  CanvasWidget.menu_entry page = Ok en ->
  Browser.same_origin win = true ->
  CanvasWidget.menu_onClick eng win page =
  Ok [HistoryPushState
        (VString
           (Url.origin (Browser.top_location win)
            ++ Url.pathname (Browser.top_location win)
            ++ match Url.query (Browser.top_location win) with
               | Some q => "?" ++ q
               | None => EmptyString
               end
            ++ "#p=" ++ CanvasWidget.encodeURIComponent
                          (Browser.ToString eng (CanvasWidget.page_name en))));
      DispatchPopState].
Proof.
  intros He Ho. rewrite (menu_click_reads_entry eng win page en He).
  apply menu_target_href, Ho.
Qed.

(** A name of unreserved characters only is encoded as itself. *)
Lemma unreserved_encoded (name : string) :
  forallb CanvasWidget.is_unreserved (list_ascii_of_string name) = true ->
  CanvasWidget.encodeURIComponent name = name.
Proof.
  intros H. unfold CanvasWidget.encodeURIComponent.
  rewrite <- (string_of_list_ascii_of_string name) at 2. f_equal.
  induction (list_ascii_of_string name) as [|c l IH]; [reflexivity|].
  cbn [forallb] in H. apply andb_prop in H as [Hc Hl].
  cbn [flat_map]. rewrite Hc, IH by assumption. reflexivity.
Qed.

Ltac close := first [reflexivity | assumption | discriminate | congruence].

(** What the canvas handler returns or throws, by the target and the
    frame. *)
Lemma canvas_outcome (eng : Browser.Engine) (win : Browser.Window) (url : value) :
  match CanvasWidget.handleNavigate eng win url with
  | Ok calls =>
      (ToBoolean url = false /\ calls = []) \/
      (exists s, url = VString s /\ startsWith "#" s = true /\
                 Browser.same_origin win = true /\
                 exists pushed, calls = [HistoryPushState pushed; DispatchPopState]) \/
      (exists s, url = VString s /\ s <> EmptyString /\ startsWith "#" s = false /\
                 Browser.resolve eng (Browser.self_location win) s <> None /\
                 calls = [LocationAssignHref url])
  | Throw e =>
      (name e = "TypeError"%string /\
       ToBoolean url = true /\ forall s, url <> VString s) \/
      (name e = "SecurityError"%string /\
       exists s, url = VString s /\
         startsWith "#" s = true /\ Browser.same_origin win = false) \/
      (name e = "SyntaxError"%string /\
       exists s, url = VString s /\ s <> EmptyString /\ startsWith "#" s = false /\
         Browser.resolve eng (Browser.self_location win) s = None)
  end.
Proof.
  unfold CanvasWidget.handleNavigate.
  destruct (ToBoolean url) eqn:T; cbn [negb]; [|left; split; reflexivity].
  destruct url as [| |b|n|s|l|props];
    try (left; split; [reflexivity|split; [reflexivity|intros s; discriminate]]).
  assert (Hne : s <> EmptyString) by (intros ->; discriminate T).
  destruct (startsWith "#" s) eqn:Hs.
  - unfold Browser.read_top_location.
    destruct (Browser.same_origin win) eqn:Ho.
    + right; left. exists s. do 3 (split; [close|]). eexists. reflexivity.
    + right; left. split; [close|]. exists s. split; [close|]. split; close.
  - unfold Browser.href_assign_url.
    destruct (Browser.resolve eng (Browser.self_location win) s) as [u|] eqn:Hr.
    + right; right. exists s. do 4 (split; [close|]). close.
    + right; right. split; [close|]. exists s. do 3 (split; [close|]). close.
Qed.

(** What the grid handler returns. *)
Lemma grid_outcome (eng : Browser.Engine) (win : Browser.Window) (url : value)
  (calls : list top_call) :
  GridWidget.handleNavigate eng win url = Ok calls ->
  (ToBoolean url = false /\ calls = []) \/
  (ToBoolean url = true /\ calls = [HistoryPushState url; DispatchPopState]) \/
  (ToBoolean url = true /\ calls = [LocationAssignHref url]).
Proof.
  unfold GridWidget.handleNavigate.
  destruct (ToBoolean url) eqn:T; cbn [negb].
  - destruct (Browser.read_top_location win) as [top|]; [|discriminate].
    destruct (String.eqb _ _).
    + destruct (Browser.pushState_url _ _ _); [|discriminate].
      intros H. injection H as <-. right; left. split; reflexivity.
    + destruct (Browser.href_assign_url _ _ _); [|discriminate].
      intros H. injection H as <-. right; right. split; reflexivity.
  - intros H. injection H as <-. left. split; reflexivity.
Qed.

End ClickFacts.

(** For every target and every frame, a navigation handler that
    returns has made no call for a falsy target, and otherwise either
    one history push followed by one popstate, or one location
    assignment: never both, never a push without its popstate. *)
Theorem navigation_single_effect (eng : Browser.Engine) (win : Browser.Window)
  (url : JS.value) (calls : list top_call) :
  CanvasWidget.handleNavigate eng win url = JS.Ok calls \/
  GridWidget.handleNavigate eng win url = JS.Ok calls ->
  (calls = [] <-> JS.ToBoolean url = false) /\
  ((exists pushed, calls = [HistoryPushState pushed; DispatchPopState]) \/
   calls = [LocationAssignHref url] \/ calls = []) /\
  (count is_push calls + count is_location_assign calls <= 1)%nat /\
  count is_popstate calls = count is_push calls.
Proof.
  intros [H|H].
  - pose proof (ClickFacts.canvas_outcome eng win url) as O. rewrite H in O.
    destruct O as [[T ->]|[(s & -> & Hs & _ & pushed & ->)
                          |(s & -> & Hne & _ & _ & ->)]].
    + split; [split; [intros _; exact T|intros _; reflexivity]|]. cbn. auto.
    + pose proof (NavigationFacts.hash_target_truthy s Hs) as T.
      split; [split; intros E; [discriminate E|rewrite T in E; discriminate E]|].
      cbn. eauto.
    + pose proof (NavigationFacts.nonempty_truthy s Hne) as T.
      split; [split; intros E; [discriminate E|rewrite T in E; discriminate E]|].
      cbn. auto.
  - destruct (ClickFacts.grid_outcome eng win url calls H)
      as [[T ->]|[[T ->]|[T ->]]].
    + split; [split; [intros _; exact T|intros _; reflexivity]|]. cbn. auto.
    + split; [split; intros E; [discriminate E|rewrite T in E; discriminate E]|].
      cbn. eauto.
    + split; [split; intros E; [discriminate E|rewrite T in E; discriminate E]|].
      cbn. auto.
Qed.

Lemma navigation_single_effect_witness :
  ([LocationAssignHref (JS.VString Inputs.cross_origin_target)] = []
   <-> JS.ToBoolean (JS.VString Inputs.cross_origin_target) = false) /\
  ((exists pushed,
      [LocationAssignHref (JS.VString Inputs.cross_origin_target)]
      = [HistoryPushState pushed; DispatchPopState]) \/
   [LocationAssignHref (JS.VString Inputs.cross_origin_target)]
     = [LocationAssignHref (JS.VString Inputs.cross_origin_target)] \/
   [LocationAssignHref (JS.VString Inputs.cross_origin_target)] = []) /\
  (count is_push [LocationAssignHref (JS.VString Inputs.cross_origin_target)]
   + count is_location_assign
       [LocationAssignHref (JS.VString Inputs.cross_origin_target)] <= 1)%nat /\
  count is_popstate [LocationAssignHref (JS.VString Inputs.cross_origin_target)]
  = count is_push [LocationAssignHref (JS.VString Inputs.cross_origin_target)].
Proof.
  apply (navigation_single_effect NavigationInputs.sample_engine
           Inputs.cross_origin_window (JS.VString Inputs.cross_origin_target)).
  left. reflexivity.
Defined.

(** The canvas handler throws in three cases, and in no other: a
    TypeError exactly for a truthy target that is not a string (it has
    no [startsWith]); a SecurityError exactly for a hash target in a
    frame of another origin than the top-level window; a SyntaxError
    exactly for a non-empty, non-hash string that does not parse as a
    URL.  So a click on a default tile throws a TypeError exactly when
    the record's [Link] is truthy and not a string (a number, [true],
    an array, an object). *)
Theorem canvas_click_throws (eng : Browser.Engine) (win : Browser.Window)
  (url : JS.value) (rec : SourceRecord) :
  (forall e, CanvasWidget.handleNavigate eng win url = JS.Throw e ->
     JS.name e = "TypeError"%string \/ JS.name e = "SecurityError"%string \/
     JS.name e = "SyntaxError"%string) /\
  ((exists e, CanvasWidget.handleNavigate eng win url = JS.Throw e /\
              JS.name e = "TypeError"%string)
   <-> (JS.ToBoolean url = true /\ forall s, url <> JS.VString s)) /\
  ((exists e, CanvasWidget.handleNavigate eng win url = JS.Throw e /\
              JS.name e = "SecurityError"%string)
   <-> (exists s, url = JS.VString s /\
          JS.startsWith "#" s = true /\ Browser.same_origin win = false)) /\
  ((exists e, CanvasWidget.handleNavigate eng win url = JS.Throw e /\
              JS.name e = "SyntaxError"%string)
   <-> (exists s, url = JS.VString s /\ s <> EmptyString /\
          JS.startsWith "#" s = false /\
          Browser.resolve eng (Browser.self_location win) s = None)) /\
  ((exists e, CanvasWidget.default_onClick eng win (CanvasWidget.mapRecord rec)
              = JS.Throw e /\ JS.name e = "TypeError"%string)
   <-> (JS.ToBoolean (JS.get "Link" rec) = true /\
        forall s, JS.get "Link" rec <> JS.VString s)).
Proof.
  assert (Ty : forall v,
    (exists e, CanvasWidget.handleNavigate eng win v = JS.Throw e /\
               JS.name e = "TypeError"%string)
    <-> (JS.ToBoolean v = true /\ forall s, v <> JS.VString s)).
  { intros v. split.
    - intros (e & H & N).
      pose proof (ClickFacts.canvas_outcome eng win v) as O. rewrite H in O.
      destruct O as [(_ & T & Hs)|[(N' & _)|(N' & _)]];
        [split; assumption|rewrite N in N'; discriminate N'..].
    - intros [T Hs]. eexists. split.
      + apply ClickFacts.canvas_not_a_string; assumption.
      + reflexivity. }
  split; [|split; [apply Ty|split; [|split]]].
  - intros e H.
    pose proof (ClickFacts.canvas_outcome eng win url) as O. rewrite H in O.
    destruct O as [(N & _)|[(N & _)|(N & _)]]; auto.
  - split.
    + intros (e & H & N).
      pose proof (ClickFacts.canvas_outcome eng win url) as O. rewrite H in O.
      destruct O as [(N' & _)|[(_ & O)|(N' & _)]];
        [rewrite N in N'; discriminate N'|exact O|rewrite N in N'; discriminate N'].
    + intros (s & -> & Hs & Ho).
      destruct (NavigationFacts.canvas_hash_target_blocked eng win s Hs Ho)
        as [msg E].
      eexists. split; [exact E|reflexivity].
  - split.
    + intros (e & H & N).
      pose proof (ClickFacts.canvas_outcome eng win url) as O. rewrite H in O.
      destruct O as [(N' & _)|[(N' & _)|(_ & O)]];
        [rewrite N in N'; discriminate N'..|exact O].
    + intros (s & -> & Hne & Hs & Hr). eexists. split;
        [apply ClickFacts.canvas_unparsable; assumption|reflexivity].
  - unfold CanvasWidget.default_onClick.
    cbn [CanvasWidget.mapRecord CanvasWidget.link]. unfold JS.or.
    destruct (JS.ToBoolean (JS.get "Link" rec)) eqn:T.
    + rewrite Ty, T. reflexivity.
    + rewrite Ty. split; intros [H _]; discriminate H.
Qed.

(** A record whose link is the number 42: the click throws a
    TypeError.  A target that is no URL: the handler throws a
    SyntaxError.  A hash target in a frame of another origin: the
    handler throws a SecurityError. *)
Example canvas_click_throws_example :
  CanvasWidget.default_onClick NavigationInputs.sample_engine
    Inputs.same_origin_window
    (CanvasWidget.mapRecord NavigationInputs.numeric_link_record)
  = JS.Throw (JS.TypeError "url.startsWith is not a function") /\
  CanvasWidget.handleNavigate NavigationInputs.sample_engine
    Inputs.same_origin_window (JS.VString NavigationInputs.unparsable_target)
  = JS.Throw (Browser.SyntaxError "href: the URL is invalid") /\
  CanvasWidget.handleNavigate NavigationInputs.sample_engine
    Inputs.cross_origin_window (JS.VString Inputs.hash_target)
  = JS.Throw (Browser.SecurityError
                "Blocked a frame from accessing a cross-origin frame").
Proof. repeat split. Qed.

(** What the canvas handler does depends on the top-level URL only
    through its origin, path and query: the fragment the page is
    currently at plays no part, so repeating a click pushes the same
    URL again. *)
Theorem navigation_ignores_fragment (eng : Browser.Engine) (self : Url.URL)
  (top top' : Url.URL) (url : JS.value) :
  Url.origin top = Url.origin top' ->
  Url.pathname top = Url.pathname top' ->
  Url.query top = Url.query top' ->
  CanvasWidget.handleNavigate eng
    {| Browser.top_location := top; Browser.self_location := self |} url
  = CanvasWidget.handleNavigate eng
      {| Browser.top_location := top'; Browser.self_location := self |} url.
Proof.
  intros Ho Hp Hq. unfold CanvasWidget.handleNavigate.
  destruct (negb (JS.ToBoolean url)); [reflexivity|].
  destruct url as [| |b|n|s|l|props]; try reflexivity.
  destruct (JS.startsWith "#" s); [|reflexivity].
  unfold Browser.read_top_location, Browser.same_origin.
  cbn [Browser.top_location Browser.self_location]. rewrite Ho.
  destruct (String.eqb (Url.origin top') (Url.origin self)); [|reflexivity].
  unfold Url.set_hash. rewrite Ho, Hp, Hq. reflexivity.
Qed.

Lemma navigation_ignores_fragment_witness :
  CanvasWidget.handleNavigate NavigationInputs.sample_engine
    Inputs.same_origin_window (JS.VString Inputs.hash_target)
  = CanvasWidget.handleNavigate NavigationInputs.sample_engine
      NavigationInputs.same_origin_window_other_fragment
      (JS.VString Inputs.hash_target).
Proof.
  apply (navigation_ignores_fragment NavigationInputs.sample_engine
           Inputs.widget_url Inputs.docs_url
           NavigationInputs.docs_url_other_fragment); reflexivity.
Defined.

(** A click on a rendered menu entry, in a frame with the top-level
    window's origin, pushes the top-level URL with its fragment
    replaced by [p=] and the percent-encoded text of the name the entry
    shows (the encoded text passes the URL parser unchanged), and
    dispatches one popstate; in a frame of another origin the click
    throws a SecurityError. *)
Theorem menu_click_target (eng : Browser.Engine) (win : Browser.Window)
  (page : JS.value) (en : CanvasWidget.MenuEntry) :
  CanvasWidget.menu_entry page = JS.Ok en ->
  (Browser.same_origin win = true ->
   CanvasWidget.menu_onClick eng win page =
   JS.Ok [HistoryPushState
            (JS.VString
               (Url.origin (Browser.top_location win)
                ++ Url.pathname (Browser.top_location win)
                ++ match Url.query (Browser.top_location win) with
                   | Some q => "?" ++ q
                   | None => EmptyString
                   end
                ++ "#p=" ++ CanvasWidget.encodeURIComponent
                              (Browser.ToString eng (CanvasWidget.page_name en))));
          DispatchPopState]) /\
  (Browser.same_origin win = false ->
   exists msg,
     CanvasWidget.menu_onClick eng win page
     = JS.Throw (Browser.SecurityError msg)).
Proof.
  intros He. split; intros Ho.
  - apply ClickFacts.menu_click_href; assumption.
  - rewrite (ClickFacts.menu_click_reads_entry eng win page en He).
    apply NavigationFacts.canvas_hash_target_blocked; [reflexivity|exact Ho].
Qed.

Lemma menu_click_target_witness :
  CanvasWidget.menu_onClick NavigationInputs.sample_engine
    Inputs.same_origin_window (Inputs.page 2 "Q&A")
  = JS.Ok [HistoryPushState
             (JS.VString "https://docs.example/o/docs/doc1/p/1?embed=true#p=Q%26A");
           DispatchPopState] /\
  exists msg,
    CanvasWidget.menu_onClick NavigationInputs.sample_engine
      Inputs.cross_origin_window (Inputs.page 2 "Q&A")
    = JS.Throw (Browser.SecurityError msg).
Proof.
  split.
  - apply (proj1 (menu_click_target NavigationInputs.sample_engine
                    Inputs.same_origin_window (Inputs.page 2 "Q&A")
                    {| CanvasWidget.key := JS.VNumber (JS.of_Z 2);
                       CanvasWidget.page_name := JS.VString "Q&A" |} eq_refl)).
    reflexivity.
  - apply (proj2 (menu_click_target NavigationInputs.sample_engine
                    Inputs.cross_origin_window (Inputs.page 2 "Q&A")
                    {| CanvasWidget.key := JS.VNumber (JS.of_Z 2);
                       CanvasWidget.page_name := JS.VString "Q&A" |} eq_refl)).
    reflexivity.
Defined.

(** A page whose name is a number: the click pushes the number's
    decimal text. *)
Example menu_click_number_example :
  CanvasWidget.menu_onClick NavigationInputs.sample_engine
    Inputs.same_origin_window
    (JS.VObject [("id", JS.VNumber (JS.of_Z 3));
                 ("fields", JS.VObject [("page_name", JS.VNumber (JS.of_Z 2024))])]%string)
  = JS.Ok [HistoryPushState
             (JS.VString "https://docs.example/o/docs/doc1/p/1?embed=true#p=2024");
           DispatchPopState].
Proof. vm_compute. reflexivity. Qed.

(** In a frame with the top-level window's origin, two rendered menu
    entries whose names read differently push different URLs: the
    pushed URL determines the text of the page name. *)
Theorem menu_targets_distinct (eng : Browser.Engine) (win : Browser.Window)
  (page1 page2 : JS.value) (en1 en2 : CanvasWidget.MenuEntry) :
  CanvasWidget.menu_entry page1 = JS.Ok en1 ->
  CanvasWidget.menu_entry page2 = JS.Ok en2 ->
  Browser.same_origin win = true ->
  Browser.ToString eng (CanvasWidget.page_name en1)
    <> Browser.ToString eng (CanvasWidget.page_name en2) ->
  CanvasWidget.menu_onClick eng win page1 <> CanvasWidget.menu_onClick eng win page2.
Proof.
  intros H1 H2 Ho Hne.
  rewrite (ClickFacts.menu_click_href eng win page1 en1 H1 Ho).
  rewrite (ClickFacts.menu_click_href eng win page2 en2 H2 Ho).
  intros H. injection H as H. apply Hne, ClickFacts.encodeURIComponent_inj.
  do 3 apply ClickFacts.append_inj_r in H. injection H as H. exact H.
Qed.

Lemma menu_targets_distinct_witness :
  CanvasWidget.menu_onClick NavigationInputs.sample_engine
    Inputs.same_origin_window (Inputs.page 1 "Home")
  <> CanvasWidget.menu_onClick NavigationInputs.sample_engine
       Inputs.same_origin_window (Inputs.page 2 "About").
Proof.
  apply (menu_targets_distinct NavigationInputs.sample_engine
           Inputs.same_origin_window (Inputs.page 1 "Home") (Inputs.page 2 "About")
           {| CanvasWidget.key := JS.VNumber (JS.of_Z 1);
              CanvasWidget.page_name := JS.VString "Home" |}
           {| CanvasWidget.key := JS.VNumber (JS.of_Z 2);
              CanvasWidget.page_name := JS.VString "About" |});
    [reflexivity|reflexivity|reflexivity|discriminate].
Defined.

(** A rendered menu entry whose name is a string of unreserved
    characters only (letters, digits and [-_.!~*'()]): in a frame with
    the top-level window's origin the click pushes the top-level URL
    with the fragment [p=] followed by the name as it is. *)
Theorem unreserved_name_kept (eng : Browser.Engine) (win : Browser.Window)
  (page : JS.value) (en : CanvasWidget.MenuEntry) (name : string) :
  CanvasWidget.menu_entry page = JS.Ok en ->
  CanvasWidget.page_name en = JS.VString name ->
  forallb CanvasWidget.is_unreserved (list_ascii_of_string name) = true ->
  Browser.same_origin win = true ->
  CanvasWidget.menu_onClick eng win page =
  JS.Ok [HistoryPushState
           (JS.VString
              (Url.origin (Browser.top_location win)
               ++ Url.pathname (Browser.top_location win)
               ++ match Url.query (Browser.top_location win) with
                  | Some q => "?" ++ q
                  | None => EmptyString
                  end
               ++ "#p=" ++ name));
         DispatchPopState].
Proof.
  intros He Hn Hu Ho.
  rewrite (ClickFacts.menu_click_href eng win page en He Ho), Hn.
  cbn [Browser.ToString]. rewrite ClickFacts.unreserved_encoded by assumption.
  reflexivity.
Qed.

Lemma unreserved_name_kept_witness :
  CanvasWidget.menu_onClick NavigationInputs.sample_engine
    Inputs.same_origin_window (Inputs.page 1 "Budget")
  = JS.Ok [HistoryPushState
             (JS.VString "https://docs.example/o/docs/doc1/p/1?embed=true#p=Budget");
           DispatchPopState].
Proof.
  apply (unreserved_name_kept NavigationInputs.sample_engine
           Inputs.same_origin_window (Inputs.page 1 "Budget")
           {| CanvasWidget.key := JS.VNumber (JS.of_Z 1);
              CanvasWidget.page_name := JS.VString "Budget" |} "Budget");
    reflexivity.
Defined.

(** In the grid widget every cell shown comes from a held tile, and the
    link icon is shown on exactly the cells whose click does anything:
    a click on a cell without the icon makes no call and throws
    nothing, a click on a cell with the icon makes a call on the
    top-level window or throws.  In a frame of another origin than the
    top-level window it throws a SecurityError. *)
Theorem grid_link_icon (eng : Browser.Engine) (win : Browser.Window)
  (st : GridWidget.State) (children : list GridWidget.grid_item)
  (cell : GridWidget.grid_item) :
  GridWidget.Dashboard st = GridWidget.GridCanvas children ->
  In cell children ->
  In (GridWidget.tile cell) (GridWidget.items st) /\
  (GridWidget.link_icon cell = true
   <-> GridWidget.onClick eng win (GridWidget.tile cell) <> JS.Ok []) /\
  (GridWidget.link_icon cell = true -> Browser.same_origin win = false ->
   exists msg,
     GridWidget.onClick eng win (GridWidget.tile cell)
     = JS.Throw (Browser.SecurityError msg)).
Proof.
  unfold GridWidget.Dashboard.
  destruct (status_truthy (GridWidget.status st)); [discriminate|].
  intros H Hin. injection H as <-.
  apply in_map_iff in Hin as (item & <- & Hin).
  cbn [GridWidget.tile GridWidget.link_icon]. split; [exact Hin|].
  unfold GridWidget.onClick.
  destruct (JS.ToBoolean (GridWidget.linkUrl item)) eqn:T.
  - split.
    + split; [|reflexivity]. intros _ E.
      destruct (ClickFacts.grid_outcome eng win _ _ E)
        as [[T' _]|[[_ E']|[_ E']]];
        [rewrite T in T'; discriminate T'|discriminate E'..].
    + intros _ Ho. apply NavigationFacts.grid_target_blocked; assumption.
  - split.
    + split; [discriminate|]. intros H. now contradiction H.
    + discriminate.
Qed.

Lemma grid_link_icon_witness :
  In (GridWidget.tile
        {| GridWidget.tile := GridWidget.mapRecord Inputs.sample_record;
           GridWidget.link_icon := true |})
     (GridWidget.items
        (GridWidget.onRecords (Some [Inputs.sample_record]) GridWidget.initial)) /\
  (GridWidget.link_icon
     {| GridWidget.tile := GridWidget.mapRecord Inputs.sample_record;
        GridWidget.link_icon := true |} = true
   <-> GridWidget.onClick NavigationInputs.sample_engine Inputs.same_origin_window
         (GridWidget.tile
            {| GridWidget.tile := GridWidget.mapRecord Inputs.sample_record;
               GridWidget.link_icon := true |}) <> JS.Ok []) /\
  (GridWidget.link_icon
     {| GridWidget.tile := GridWidget.mapRecord Inputs.sample_record;
        GridWidget.link_icon := true |} = true ->
   Browser.same_origin Inputs.same_origin_window = false ->
   exists msg,
     GridWidget.onClick NavigationInputs.sample_engine Inputs.same_origin_window
       (GridWidget.tile
          {| GridWidget.tile := GridWidget.mapRecord Inputs.sample_record;
             GridWidget.link_icon := true |})
     = JS.Throw (Browser.SecurityError msg)).
Proof.
  apply (grid_link_icon NavigationInputs.sample_engine Inputs.same_origin_window
           (GridWidget.onRecords (Some [Inputs.sample_record]) GridWidget.initial)
           [ {| GridWidget.tile := GridWidget.mapRecord Inputs.sample_record;
                GridWidget.link_icon := true |} ]).
  - reflexivity.
  - left. reflexivity.
Defined.

(** The cell of the example record, clicked in a same-origin frame and
    in a frame of another origin. *)
Example grid_click_example :
  GridWidget.onClick NavigationInputs.sample_engine Inputs.same_origin_window
    (GridWidget.mapRecord Inputs.sample_record)
  = JS.Ok [HistoryPushState (JS.VString "#p=Budget"); DispatchPopState] /\
  GridWidget.onClick NavigationInputs.sample_engine Inputs.cross_origin_window
    (GridWidget.mapRecord Inputs.sample_record)
  = JS.Throw (Browser.SecurityError
                "Blocked a frame from accessing a cross-origin frame").
Proof. split; vm_compute; reflexivity. Qed.

(** ** More on the records handler *)

(** Each call of the records handler replaces both state cells: after
    any sequence of batches the state is the one the last batch alone
    gives, whatever came before (in the three widgets). *)
Theorem records_last_batch (batches : list (option (list SourceRecord)))
  (last : option (list SourceRecord)) :
  (forall st st' : CanvasWidget.State,
     fold_left (fun s b => CanvasWidget.onRecords b s) (batches ++ [last]) st
     = CanvasWidget.onRecords last st') /\
  (forall st st' : GridWidget.State,
     fold_left (fun s b => GridWidget.onRecords b s) (batches ++ [last]) st
     = GridWidget.onRecords last st') /\
  (forall st st' : PlainWidget.State,
     fold_left (fun s b => PlainWidget.onRecords b s) (batches ++ [last]) st
     = PlainWidget.onRecords last st').
Proof.
  split; [|split]; intros st st'; rewrite fold_left_app; cbn [fold_left];
    destruct last as [[|r rs]|]; reflexivity.
Qed.

(** For every source record the tile has a truthy color in both
    widgets: the record's own [Color] exactly when that is truthy (and
    exactly then the canvas widget tints the background), a default
    otherwise.  The grid widget's label is always truthy; the canvas
    widget's label and link are truthy or the empty string. *)
Theorem display_defaults (rec : SourceRecord) :
  JS.ToBoolean (CanvasWidget.color (CanvasWidget.mapRecord rec)) = true /\
  JS.ToBoolean (GridWidget.color (GridWidget.mapRecord rec)) = true /\
  JS.ToBoolean (GridWidget.label (GridWidget.mapRecord rec)) = true /\
  (CanvasWidget.color (CanvasWidget.mapRecord rec) = JS.get "Color" rec
   <-> JS.ToBoolean (JS.get "Color" rec) = true) /\
  (GridWidget.color (GridWidget.mapRecord rec) = JS.get "Color" rec
   <-> JS.ToBoolean (JS.get "Color" rec) = true) /\
  (CanvasWidget.bgColor (CanvasWidget.mapRecord rec) = JS.VString "rgba(255,255,255,0.05)"
   <-> JS.ToBoolean (JS.get "Color" rec) = true) /\
  (JS.ToBoolean (CanvasWidget.label (CanvasWidget.mapRecord rec)) = false
   -> CanvasWidget.label (CanvasWidget.mapRecord rec) = JS.VString EmptyString) /\
  (JS.ToBoolean (CanvasWidget.link (CanvasWidget.mapRecord rec)) = false
   -> CanvasWidget.link (CanvasWidget.mapRecord rec) = JS.VString EmptyString).
Proof.
  cbn [CanvasWidget.mapRecord GridWidget.mapRecord CanvasWidget.color
       GridWidget.color GridWidget.label CanvasWidget.bgColor CanvasWidget.label
       CanvasWidget.link].
  unfold JS.or.
  destruct (JS.ToBoolean (JS.get "Color" rec)) eqn:TC;
    destruct (JS.ToBoolean (JS.get "Label" rec)) eqn:TL;
    destruct (JS.ToBoolean (JS.get "Link" rec)) eqn:TK;
    repeat split; intros; try assumption; try reflexivity; try discriminate;
    try congruence;
    match goal with
    | H : JS.VString _ = JS.get "Color" rec |- _ =>
        rewrite <- H in TC; discriminate TC
    end.
Qed.

Lemma display_defaults_witness :
  CanvasWidget.label (CanvasWidget.mapRecord Inputs.zero_size_record)
    = JS.VString EmptyString /\
  CanvasWidget.link (CanvasWidget.mapRecord Inputs.zero_size_record)
    = JS.VString EmptyString.
Proof.
  destruct (display_defaults Inputs.zero_size_record)
    as (_ & _ & _ & _ & _ & _ & HL & HK).
  split; [apply HL | apply HK]; reflexivity.
Defined.

(** ** The host handshake and the mapper *)

Module FrameFacts.
Import JS.

Lemma In_cons_all {A} (P : A -> Prop) (a : A) (l : list A) :
  (forall k, In k (a :: l) -> P k) -> P a /\ (forall k, In k l -> P k).
Proof. intros H. split; [apply H; left; reflexivity|intros k Hk; apply H; right; exact Hk]. Qed.

End FrameFacts.

(** The record mappers read the record's [id] and the columns declared
    in the call of [grist.ready], nothing else: two records that agree
    on these give the same tile. *)
Theorem mapper_reads_declared_columns (rec rec' : SourceRecord) :
  ((forall k, In k ("id"%string :: Host.canvas_columns Host.canvas_ready) ->
              JS.get k rec = JS.get k rec') ->
   CanvasWidget.mapRecord rec = CanvasWidget.mapRecord rec') /\
  ((forall k, In k ("id"%string :: map Host.name (Host.columns Host.grid_ready)) ->
              JS.get k rec = JS.get k rec') ->
   GridWidget.mapRecord rec = GridWidget.mapRecord rec').
Proof.
  split; intros H; cbn [Host.canvas_columns Host.canvas_ready Host.columns
                        Host.grid_ready map Host.name] in H;
    repeat (apply FrameFacts.In_cons_all in H; destruct H as [? H]);
    unfold CanvasWidget.mapRecord, GridWidget.mapRecord;
    repeat match goal with
           | E : JS.get _ rec = JS.get _ rec' |- _ => rewrite E; clear E
           end; reflexivity.
Qed.

Lemma mapper_reads_declared_columns_witness :
  CanvasWidget.mapRecord Host.extra_column_record
    = CanvasWidget.mapRecord Host.plain_record /\
  GridWidget.mapRecord Host.extra_column_record
    = GridWidget.mapRecord Host.plain_record.
Proof.
  destruct (mapper_reads_declared_columns Host.extra_column_record Host.plain_record)
    as [HC HG].
  split; [apply HC | apply HG]; intros k Hk; cbn in Hk;
    repeat (destruct Hk as [<-|Hk]; [reflexivity|]); contradiction.
Defined.

(** ** The crash boundary's state *)

(** The boundary's own methods never reset [hasError]: once a failure
    was reported, every later state renders the diagnostic view, never
    the children; and after a [componentDidCatch] the description
    shown is that of the failure it was given, in the grid widget
    together with the component stack it was given. *)
Theorem boundary_never_recovers {V : Type} (e : JS.Error)
  (before calls : list BoundaryCalls.call) (st : ErrorBoundary.State) (children : V) :
  let reported :=
    BoundaryCalls.after (before ++ BoundaryCalls.GetDerivedStateFromError e :: calls) st in
  ErrorBoundary.hasError reported = true /\
  ErrorBoundary.render reported children <> ErrorBoundary.Children children /\
  ErrorBoundary.render_canvas reported children <> ErrorBoundary.Children children /\
  forall e' info,
    ErrorBoundary.render_canvas
      (BoundaryCalls.apply_call reported (BoundaryCalls.ComponentDidCatch e' info))
      children
    = ErrorBoundary.Diagnostic (Some (JS.Error_toString e')) None /\
    ErrorBoundary.render
      (BoundaryCalls.apply_call reported (BoundaryCalls.ComponentDidCatch e' info))
      children
    = ErrorBoundary.Diagnostic (Some (JS.Error_toString e'))
        (Some (ErrorBoundary.componentStack info)).
Proof.
  intros reported.
  assert (Keep : forall cs s, ErrorBoundary.hasError s = true ->
                   ErrorBoundary.hasError (BoundaryCalls.after cs s) = true).
  { induction cs as [|c cs IH]; intros s Hs; [exact Hs|].
    apply IH. destruct c; [reflexivity|exact Hs]. }
  assert (HE : ErrorBoundary.hasError reported = true).
  { unfold reported, BoundaryCalls.after. rewrite fold_left_app.
    cbn [fold_left]. apply (Keep calls). reflexivity. }
  split; [exact HE|].
  unfold ErrorBoundary.render, ErrorBoundary.render_canvas.
  cbn [BoundaryCalls.apply_call ErrorBoundary.componentDidCatch
       ErrorBoundary.hasError ErrorBoundary.error].
  rewrite HE. repeat split; discriminate.
Qed.

(** ** The menu sub-renderer *)

Module MenuFacts.
Import JS CanvasWidget MenuPages.

Lemma prop_throws (k : string) (v : value) :
  (exists e, prop k v = Throw e) <-> (v = VUndefined \/ v = VNull).
Proof.
  destruct v; cbn [prop]; split;
    try (intros [e H]; discriminate H);
    try (intros [H|H]; discriminate H);
    try (intros _; eexists; reflexivity); auto.
Qed.

Lemma menu_entry_ok (page : value) (en : MenuEntry) :
  menu_entry page = Ok en <-> shown_as en page.
Proof.
  unfold menu_entry, shown_as.
  destruct page as [| | | | | |props]; cbn [prop];
    try (split; [discriminate|intros (p & H & _); discriminate H]).
  split.
  - intros H. exists props. split; [reflexivity|].
    destruct (prop "page_name" (get "fields" props)) as [n|e]; [|discriminate H].
    injection H as <-. split; reflexivity.
  - intros (p & Hp & Hk & Hn). injection Hp as <-. rewrite Hn.
    destruct en as [k n]. cbn in *. subst k. reflexivity.
Qed.

Lemma menu_entry_throws (page : value) :
  (exists e, menu_entry page = Throw e) <-> ~ readable page.
Proof.
  unfold menu_entry, readable.
  destruct page as [| | | | | |props]; cbn [prop];
    try (split; [intros _ (p & H & _); discriminate H|intros _; eexists; reflexivity]).
  pose proof (prop_throws "page_name" (get "fields" props)) as PT.
  split.
  - intros [e H] (p & Hp & Hu & Hn). injection Hp as <-.
    destruct (prop "page_name" (get "fields" props)) as [n|e'] eqn:E; [discriminate H|].
    destruct PT as [PT _]. destruct PT as [F|F]; [eexists; reflexivity| |]; contradiction.
  - intros Hnr.
    destruct (prop "page_name" (get "fields" props)) as [n|e'] eqn:E;
      [|eexists; reflexivity].
    exfalso. apply Hnr. exists props. split; [reflexivity|].
    split; intros F; rewrite F in E; discriminate E.
Qed.

Lemma menu_entries_ok (ps : list value) (es : list MenuEntry) :
  menu_entries ps = Ok es <-> Forall2 shown_as es ps.
Proof.
  revert es. induction ps as [|p ps IH]; intros es; cbn [menu_entries].
  - split; [intros H; injection H as <-; constructor|intros H; inversion H; reflexivity].
  - split.
    + intros H. destruct (menu_entry p) as [en|e] eqn:E; [|discriminate H].
      destruct (menu_entries ps) as [es'|e] eqn:E'; [|discriminate H].
      injection H as <-. constructor; [apply menu_entry_ok, E|apply IH; reflexivity].
    + intros H. inversion H as [|en p' es' ps' Hen Hes]; subst.
      apply menu_entry_ok in Hen. rewrite Hen.
      apply IH in Hes. rewrite Hes. reflexivity.
Qed.

Lemma menu_entries_throws (ps : list value) :
  (exists e, menu_entries ps = Throw e) <-> exists p, In p ps /\ ~ readable p.
Proof.
  induction ps as [|p ps IH]; cbn [menu_entries].
  - split; [intros [e H]; discriminate H|intros (p & [] & _)].
  - pose proof (menu_entry_throws p) as PT. split.
    + intros [e H]. destruct (menu_entry p) as [en|e'] eqn:E.
      * destruct (menu_entries ps) as [es|e''] eqn:E'; [discriminate H|].
        destruct IH as [IH _]. destruct IH as (q & Hq & Hr); [eexists; reflexivity|].
        exists q. split; [right; exact Hq|exact Hr].
      * exists p. split; [left; reflexivity|]. apply PT. eexists; reflexivity.
    + intros (q & [<-|Hq] & Hr).
      * apply PT in Hr as [e He]. rewrite He. eexists; reflexivity.
      * destruct (menu_entry p) as [en|e']; [|eexists; reflexivity].
        destruct IH as [_ IH]. destruct IH as [e He]; [exists q; split; assumption|].
        rewrite He. eexists; reflexivity.
Qed.

Lemma pageRecords_dispatched (item : Tile) (l : list value) :
  pages item = VArray l -> (1 < List.length l)%nat ->
  pageRecords item = nth 1 l VUndefined.
Proof.
  intros Hp Hl. unfold pageRecords. rewrite Hp. cbn [is_array_longer_than_one].
  apply Nat.ltb_lt in Hl. rewrite Hl. reflexivity.
Qed.

End MenuFacts.

(** For a tile dispatched to the menu sub-renderer ([pages] an array
    with more than one element), the renderer throws exactly when the
    second element of [pages] is not an array, or when one of its
    sub-records is not a plain object with a [fields] value other than
    [undefined] and [null]. *)
Theorem menu_renderer_throws (item : CanvasWidget.Tile) (l : list JS.value) :
  CanvasWidget.pages item = JS.VArray l -> (1 < List.length l)%nat ->
  ((exists e, CanvasWidget.MenuElement item = JS.Throw e)
   <-> ((forall ps, nth 1 l JS.VUndefined <> JS.VArray ps) \/
        (exists ps p, nth 1 l JS.VUndefined = JS.VArray ps /\ In p ps /\
                      ~ MenuPages.readable p))).
Proof.
  intros Hp Hl. unfold CanvasWidget.MenuElement.
  rewrite (MenuFacts.pageRecords_dispatched item l Hp Hl).
  destruct (nth 1 l JS.VUndefined) as [| | | | |ps|props] eqn:E;
    try (split; [intros _; left; discriminate
                |intros _; eexists; reflexivity]).
  rewrite MenuFacts.menu_entries_throws. split.
  - intros (p & Hin & Hr). right. exists ps, p. repeat split; assumption.
  - intros [H|(ps' & p & Hps & Hin & Hr)].
    + exfalso. apply (H ps). reflexivity.
    + injection Hps as <-. exists p. split; assumption.
Qed.

(** A reference list delivered as row ids: the second element is the
    number 4, and the menu sub-renderer throws. *)
Lemma menu_renderer_throws_witness :
  exists e, CanvasWidget.MenuElement MenuPages.row_id_menu = JS.Throw e.
Proof.
  apply (menu_renderer_throws MenuPages.row_id_menu
           [JS.VString "L"; JS.VNumber (JS.of_Z 4); JS.VNumber (JS.of_Z 5)]).
  - reflexivity.
  - cbn. auto.
  - left. cbn. discriminate.
Defined.

(** When the menu sub-renderer returns, it lists one entry per
    sub-record, in the order of the sub-records, each with the
    sub-record's [id] as key and its [fields.page_name] as text; for a
    tile whose [pages] is not an array of more than one element it lists
    nothing. *)
Theorem menu_renderer_entries (item : CanvasWidget.Tile)
  (es : list CanvasWidget.MenuEntry) :
  CanvasWidget.MenuElement item = JS.Ok es ->
  (CanvasWidget.is_array_longer_than_one (CanvasWidget.pages item) = false /\ es = []) \/
  (exists l ps,
     CanvasWidget.pages item = JS.VArray l /\ (1 < List.length l)%nat /\
     nth 1 l JS.VUndefined = JS.VArray ps /\
     Forall2 MenuPages.shown_as es ps /\
     List.length es = List.length ps).
Proof.
  unfold CanvasWidget.MenuElement, CanvasWidget.pageRecords.
  destruct (CanvasWidget.is_array_longer_than_one (CanvasWidget.pages item)) eqn:G.
  - apply DispatchFacts.is_array_longer_than_one_true in G as (l & Hp & Hl).
    rewrite Hp. intros H. right.
    destruct (nth 1 l JS.VUndefined) as [| | | | |ps|props] eqn:E; try discriminate H.
    apply MenuFacts.menu_entries_ok in H.
    exists l, ps. repeat split; try assumption.
    eapply Forall2_length; eassumption.
  - cbn [CanvasWidget.menu_entries]. intros H. injection H as <-. left.
    split; reflexivity.
Qed.

Lemma menu_renderer_entries_witness :
  (CanvasWidget.is_array_longer_than_one (CanvasWidget.pages Inputs.two_page_menu) = false /\
   [ {| CanvasWidget.key := JS.VNumber (JS.of_Z 1);
        CanvasWidget.page_name := JS.VString "Home" |};
     {| CanvasWidget.key := JS.VNumber (JS.of_Z 2);
        CanvasWidget.page_name := JS.VString "About" |} ] = []) \/
  (exists l ps,
     CanvasWidget.pages Inputs.two_page_menu = JS.VArray l /\ (1 < List.length l)%nat /\
     nth 1 l JS.VUndefined = JS.VArray ps /\
     Forall2 MenuPages.shown_as
       [ {| CanvasWidget.key := JS.VNumber (JS.of_Z 1);
            CanvasWidget.page_name := JS.VString "Home" |};
         {| CanvasWidget.key := JS.VNumber (JS.of_Z 2);
            CanvasWidget.page_name := JS.VString "About" |} ] ps /\
     List.length
       [ {| CanvasWidget.key := JS.VNumber (JS.of_Z 1);
            CanvasWidget.page_name := JS.VString "Home" |};
         {| CanvasWidget.key := JS.VNumber (JS.of_Z 2);
            CanvasWidget.page_name := JS.VString "About" |} ] = List.length ps).
Proof.
  apply (menu_renderer_entries Inputs.two_page_menu). vm_compute. reflexivity.
Defined.

